(** * Event booking service: the two Lambda handlers

    A shallow embedding of [lambda/booking_handler.py] and
    [lambda/notification_handler.py].  Python values are an inductive
    type, dictionaries are insertion-ordered association lists, and the
    handlers run in a state-and-exception monad over a [world] that holds
    the DynamoDB table, the SQS queue, the log of AWS calls and standard
    output.  An exception leaves the world as it was when it was raised:
    nothing is rolled back. *)

From Stdlib Require Import String Ascii List ZArith Lia Bool DecimalString Permutation.
Import ListNotations.
Open Scope string_scope.

(** ** Python values *)

Set Warnings "-register-all".

(** The values a Lambda event decoded from JSON is made of.  Numbers are
    restricted to integers: no field read by the handlers is numeric. *)
Inductive value : Type :=
| VNone
| VBool (b : bool)
| VInt (z : Z)
| VStr (s : string)
| VList (l : list value)
| VDict (d : list (string * value)).

(** A [dict] with string keys, in insertion order. *)
Definition dict : Type := list (string * value).

Fixpoint dict_get (d : dict) (k : string) : option value :=
  match d with
  | [] => None
  | (k', v) :: rest => if String.eqb k' k then Some v else dict_get rest k
  end.

(** [k in d] *)
Definition dict_mem (k : string) (d : dict) : bool :=
  match dict_get d k with Some _ => true | None => false end.

(** [d.get(k, default)] *)
Definition dict_get_default (d : dict) (k : string) (default : value) : value :=
  match dict_get d k with Some v => v | None => default end.

(** Structural equality, the comparison of the store on key attributes. *)
Fixpoint value_eqb (a b : value) : bool :=
  match a, b with
  | VNone, VNone => true
  | VBool x, VBool y => Bool.eqb x y
  | VInt x, VInt y => Z.eqb x y
  | VStr x, VStr y => String.eqb x y
  | VList xs, VList ys =>
      (fix go (xs ys : list value) : bool :=
         match xs, ys with
         | [], [] => true
         | x :: xs', y :: ys' => value_eqb x y && go xs' ys'
         | _, _ => false
         end) xs ys
  | VDict xs, VDict ys =>
      (fix go (xs ys : dict) : bool :=
         match xs, ys with
         | [], [] => true
         | (k, x) :: xs', (k', y) :: ys' =>
             String.eqb k k' && value_eqb x y && go xs' ys'
         | _, _ => false
         end) xs ys
  | _, _ => false
  end.

(** [v == 'literal']: only a [str] with the same contents is equal. *)
Definition py_eq_str (v : value) (s : string) : bool :=
  match v with VStr s' => String.eqb s' s | _ => false end.

(** [bool(v)] *)
Definition truthy (v : value) : bool :=
  match v with
  | VNone => false
  | VBool b => b
  | VInt z => negb (Z.eqb z 0)
  | VStr s => negb (String.eqb s "")
  | VList l => match l with [] => false | _ => true end
  | VDict d => match d with [] => false | _ => true end
  end.

(** [type(v).__name__] *)
Definition type_name (v : value) : string :=
  match v with
  | VNone => "NoneType"
  | VBool _ => "bool"
  | VInt _ => "int"
  | VStr _ => "str"
  | VList _ => "list"
  | VDict _ => "dict"
  end.

(** [needle in haystack] on two [str]. *)
Fixpoint is_substring (needle haystack : string) : bool :=
  String.prefix needle haystack ||
  match haystack with
  | EmptyString => false
  | String _ rest => is_substring needle rest
  end.

(** The characters of a [str], one [str] each. *)
Fixpoint chars (s : string) : list value :=
  match s with
  | EmptyString => []
  | String c rest => VStr (String c EmptyString) :: chars rest
  end.

(** Decimal rendering of [int], as [str()] and f-strings give it. *)
Definition str_of_Z (z : Z) : string := NilZero.string_of_int (Z.to_int z).
Definition str_of_nat (n : nat) : string := str_of_Z (Z.of_nat n).

(** ** Exceptions *)

(** The subclasses of [Exception] the handlers can meet. [ClientError]
    stands for whatever the AWS clients raise; [ValueError] is the plain
    class, of which [JSONDecodeError] is a subclass of its own. *)
Inductive exn : Type :=
| JSONDecodeError (msg : string)
| KeyError (key : string)
| TypeError (msg : string)
| AttributeError (msg : string)
| ClientError (msg : string)
| ValueError (msg : string)
| RecursionError (msg : string).

(** [str(e)]; a [KeyError] prints the [repr] of its key. *)
Definition str_exn (e : exn) : string :=
  match e with
  | JSONDecodeError msg => msg
  | KeyError key => "'" ++ key ++ "'"
  | TypeError msg => msg
  | AttributeError msg => msg
  | ClientError msg => msg
  | ValueError msg => msg
  | RecursionError msg => msg
  end.

(** [container[k]] with a [str] subscript. *)
Definition py_getitem (container : value) (k : string) : exn + value :=
  match container with
  | VDict d =>
      match dict_get d k with
      | Some v => inr v
      | None => inl (KeyError k)
      end
  | VList _ => inl (TypeError "list indices must be integers or slices, not str")
  | VStr _ => inl (TypeError "string indices must be integers")
  | _ => inl (TypeError ("'" ++ type_name container ++ "' object is not subscriptable"))
  end.

(** [k in container] with a [str] on the left. *)
Definition py_contains (k : string) (container : value) : exn + bool :=
  match container with
  | VDict d => inr (dict_mem k d)
  | VList l => inr (existsb (fun x => py_eq_str x k) l)
  | VStr s => inr (is_substring k s)
  | _ => inl (TypeError ("argument of type '" ++ type_name container ++ "' is not iterable"))
  end.

(** [obj.get(k, default)]: only a [dict] has the method. *)
Definition py_get (obj : value) (k : string) (default : value) : exn + value :=
  match obj with
  | VDict d => inr (dict_get_default d k default)
  | _ => inl (AttributeError ("'" ++ type_name obj ++ "' object has no attribute 'get'"))
  end.

(** [for x in v]: the elements visited. *)
Definition py_iter (v : value) : exn + list value :=
  match v with
  | VList l => inr l
  | VDict d => inr (map (fun kv => VStr (fst kv)) d)
  | VStr s => inr (chars s)
  | _ => inl (TypeError ("'" ++ type_name v ++ "' object is not iterable"))
  end.

(** ** The interpreter's library

    [json] and [repr] belong to the Python runtime, not to this
    repository; the handlers are parametric in them. *)
Class PyRuntime : Type := {
  (** [json.loads] on a [str]: the value, or the exception it raises,
      which is [JSONDecodeError] for a text that is not JSON but can be
      another one ([RecursionError] for a text nested too deeply,
      [ValueError] for an integer literal over the digit limit) *)
  json_loads : string -> exn + value;
  (** [json.dumps(v)] *)
  json_dumps : value -> string;
  (** [json.dumps(v, cls=DecimalEncoder)] *)
  json_dumps_decimal : value -> string;
  (** [json.dumps(v, indent=2)] *)
  json_dumps_indent2 : value -> string;
  (** [repr] of a list or a dict *)
  py_repr : value -> string
}.

(** [json.loads(v)] on any value: anything but a [str] is a [TypeError]. *)
Definition py_json_loads `{PyRuntime} (v : value) : exn + value :=
  match v with
  | VStr s => json_loads s
  | _ => inl (TypeError ("the JSON object must be str, bytes or bytearray, not "
                         ++ type_name v))
  end.

(** [str(v)], the rendering of [{v}] in an f-string. *)
Definition py_str `{PyRuntime} (v : value) : string :=
  match v with
  | VNone => "None"
  | VBool true => "True"
  | VBool false => "False"
  | VInt z => str_of_Z z
  | VStr s => s
  | _ => py_repr v
  end.

(** ** The world: table, queue, call log, standard output *)

Inductive call : Type :=
| PutItem (item : dict)
| SendMessage (queue_url : string) (message_body : string)
| Query (event_id : value)
| Scan.

Record world : Type := mkWorld {
  table_items : list dict;   (** the items of the bookings table *)
  queue_msgs : list string;  (** the bodies accepted by the queue, oldest first *)
  aws_calls : list call;     (** every call issued, failed ones included *)
  stdout : list string       (** the texts printed, one for each call of [print] *)
}.

(** ** A state and exception monad *)

Definition M (A : Type) : Type := world -> world * (exn + A).

Definition ret {A} (a : A) : M A := fun w => (w, inr a).

Definition bind {A B} (c : M A) (k : A -> M B) : M B :=
  fun w =>
    match c w with
    | (w', inr a) => k a w'
    | (w', inl e) => (w', inl e)
    end.

Definition raise {A} (e : exn) : M A := fun w => (w, inl e).

Definition lift {A} (r : exn + A) : M A :=
  match r with inl e => raise e | inr a => ret a end.

(** [try: c  except <classes> as e: h e]; [h e = None] when no clause
    matches [e], which then propagates. *)
Definition try_except {A} (c : M A) (h : exn -> option (M A)) : M A :=
  fun w =>
    match c w with
    | (w', inr a) => (w', inr a)
    | (w', inl e) =>
        match h e with
        | Some handler => handler w'
        | None => (w', inl e)
        end
    end.

Definition print (line : string) : M unit :=
  fun w => (mkWorld (table_items w) (queue_msgs w) (aws_calls w) (stdout w ++ [line]), inr tt).

Definition log_call (c : call) : M unit :=
  fun w => (mkWorld (table_items w) (queue_msgs w) (aws_calls w ++ [c]) (stdout w), inr tt).

Declare Scope py_scope.
Delimit Scope py_scope with py.
Notation "x <- c ;; k" := (bind c (fun x => k))
  (at level 61, c at next level, right associativity) : py_scope.
Notation "c ;; k" := (bind c (fun _ => k))
  (at level 61, right associativity) : py_scope.
Open Scope py_scope.

(** ** The bookings table *)

Definition opt_value_eqb (a b : option value) : bool :=
  match a, b with
  | Some x, Some y => value_eqb x y
  | None, None => true
  | _, _ => false
  end.

(** Modelled from the spec: the table and its key schema are declared
    outside the handlers.  The spec gives [event_id] as the partition key
    and [booking_id] as the sort key; the pair identifies an item. *)
Definition same_key (a b : dict) : bool :=
  opt_value_eqb (dict_get a "event_id") (dict_get b "event_id")
  && opt_value_eqb (dict_get a "booking_id") (dict_get b "booking_id").

(** Modelled from the spec: the store is keyed by event and booking
    identifiers and a write is unconditional, so it replaces the item that
    has the same primary key, or adds one. *)
Fixpoint table_put (item : dict) (items : list dict) : list dict :=
  match items with
  | [] => [item]
  | old :: rest =>
      if same_key old item then item :: rest else old :: table_put item rest
  end.

(** Modelled from the spec: a query retrieves all the records of one
    partition key; the order is the table's. *)
Definition partition (event_id : value) (items : list dict) : list dict :=
  filter (fun it => opt_value_eqb (dict_get it "event_id") (Some event_id)) items.

(** ** lambda/booking_handler.py *)

Module Booking.

(** What one invocation draws from outside the program: the module's
    configuration, the random identifier, the clock, and whether each AWS
    call raises. *)
Record env : Type := mkEnv {
  SQS_QUEUE_URL : string;
  uuid4 : string;                     (** [str(uuid.uuid4())] *)
  utcnow_isoformat : string;          (** [datetime.utcnow().isoformat()] *)
  put_item_fault : option exn;
  send_message_fault : option exn;
  query_fault : option exn;
  scan_fault : option exn
}.

Section Handler.
Context `{PyRuntime}.
Variable e : env.

(** [table.put_item(Item=item)] *)
Definition put_item (item : dict) : M unit :=
  log_call (PutItem item) ;;
  match put_item_fault e with
  | Some ex => raise ex
  | None =>
      fun w => (mkWorld (table_put item (table_items w)) (queue_msgs w)
                        (aws_calls w) (stdout w), inr tt)
  end.

(** [sqs.send_message(QueueUrl=url, MessageBody=body)] *)
Definition send_message (url body : string) : M unit :=
  log_call (SendMessage url body) ;;
  match send_message_fault e with
  | Some ex => raise ex
  | None =>
      fun w => (mkWorld (table_items w) (queue_msgs w ++ [body])
                        (aws_calls w) (stdout w), inr tt)
  end.

(** [table.query(KeyConditionExpression='event_id = :event_id', ...)]
    followed by [response.get('Items', [])]; one page holds the result. *)
Definition query (event_id : value) : M (list dict) :=
  log_call (Query event_id) ;;
  match query_fault e with
  | Some ex => raise ex
  | None => fun w => (w, inr (partition event_id (table_items w)))
  end.

(** [table.scan()] followed by [response.get('Items', [])]. *)
Definition scan : M (list dict) :=
  log_call Scan ;;
  match scan_fault e with
  | Some ex => raise ex
  | None => fun w => (w, inr (table_items w))
  end.

(** The loop over [required_fields]: [Some response] is its early
    [return], [None] its normal end. *)
Fixpoint validate_required (required_fields : list string) (body : value)
  : M (option value) :=
  match required_fields with
  | [] => ret None
  | field :: rest =>
      present <- lift (py_contains field body) ;;
      if negb present then
        ret (Some (VDict
          [("statusCode", VInt 400);
           ("headers", VDict [("Content-Type", VStr "application/json");
                              ("Access-Control-Allow-Origin", VStr "*")]);
           ("body", VStr (json_dumps (VDict
              [("error", VStr ("Missing required field: " ++ field))])))]))
      else validate_required rest body
  end.

Definition create_booking (event : dict) : M value :=
  parsed <- try_except
    (raw <- lift (py_getitem (VDict event) "body") ;;
     body <- lift (py_json_loads raw) ;;
     ret (inr body))
    (fun ex =>
       match ex with
       | JSONDecodeError _ | KeyError _ =>
           Some (ret (inl (VDict
             [("statusCode", VInt 400);
              ("headers", VDict [("Content-Type", VStr "application/json");
                                 ("Access-Control-Allow-Origin", VStr "*")]);
              ("body", VStr (json_dumps (VDict
                 [("error", VStr "Invalid request body")])))])))
       | _ => None
       end) ;;
  match parsed with
  | inl response => ret response
  | inr body =>
      invalid <- validate_required ["event_id"; "user_name"; "user_email"] body ;;
      match invalid with
      | Some response => ret response
      | None =>
          let booking_id := "booking-" ++ uuid4 e in
          let timestamp := utcnow_isoformat e in
          item_event_id <- lift (py_getitem body "event_id") ;;
          item_user_name <- lift (py_getitem body "user_name") ;;
          item_user_email <- lift (py_getitem body "user_email") ;;
          let booking_item :=
            [("event_id", item_event_id);
             ("booking_id", VStr booking_id);
             ("user_name", item_user_name);
             ("user_email", item_user_email);
             ("booking_status", VStr "confirmed");
             ("created_at", VStr timestamp)] in
          put_item booking_item ;;
          print ("Created booking: " ++ booking_id) ;;
          msg_event_id <- lift (py_getitem body "event_id") ;;
          msg_user_email <- lift (py_getitem body "user_email") ;;
          msg_user_name <- lift (py_getitem body "user_name") ;;
          let notification_message :=
            [("booking_id", VStr booking_id);
             ("event_id", msg_event_id);
             ("user_email", msg_user_email);
             ("user_name", msg_user_name);
             ("action", VStr "booking_created");
             ("timestamp", VStr timestamp)] in
          send_message (SQS_QUEUE_URL e) (json_dumps (VDict notification_message)) ;;
          print ("Sent notification to SQS for booking: " ++ booking_id) ;;
          ret (VDict
            [("statusCode", VInt 201);
             ("headers", VDict [("Content-Type", VStr "application/json");
                                ("Access-Control-Allow-Origin", VStr "*")]);
             ("body", VStr (json_dumps_decimal (VDict
                [("message", VStr "Booking created successfully");
                 ("booking", VDict booking_item)])))])
      end
  end.

Definition get_bookings (event : dict) : M value :=
  let params := dict_get_default event "queryStringParameters" (VDict []) in
  let query_params := if truthy params then params else VDict [] in
  event_id <- lift (py_get query_params "event_id" VNone) ;;
  found <-
    (if truthy event_id then
       bookings <- query event_id ;;
       ret (bookings,
            "Found " ++ str_of_nat (length bookings) ++ " booking(s) for event "
            ++ py_str event_id)
     else
       bookings <- scan ;;
       ret (bookings,
            "Found " ++ str_of_nat (length bookings) ++ " total booking(s)")) ;;
  let bookings := fst found in
  let message := snd found in
  ret (VDict
    [("statusCode", VInt 200);
     ("headers", VDict [("Content-Type", VStr "application/json");
                        ("Access-Control-Allow-Origin", VStr "*")]);
     ("body", VStr (json_dumps_decimal (VDict
        [("message", VStr message);
         ("bookings", VList (map VDict bookings))])))]).

Definition lambda_handler (event : dict) : M value :=
  print ("Received event: " ++ json_dumps (VDict event)) ;;
  let http_method := dict_get_default event "httpMethod" (VStr "") in
  try_except
    (if py_eq_str http_method "POST" then create_booking event
     else if py_eq_str http_method "GET" then get_bookings event
     else ret (VDict
       [("statusCode", VInt 405);
        ("headers", VDict [("Content-Type", VStr "application/json");
                           ("Access-Control-Allow-Origin", VStr "*")]);
        ("body", VStr (json_dumps (VDict [("error", VStr "Method not allowed")])))]))
    (fun ex => Some (
       print ("Error: " ++ str_exn ex) ;;
       ret (VDict
         [("statusCode", VInt 500);
          ("headers", VDict [("Content-Type", VStr "application/json");
                             ("Access-Control-Allow-Origin", VStr "*")]);
          ("body", VStr (json_dumps (VDict
             [("error", VStr "Internal server error");
              ("message", VStr (str_exn ex))])))]))).

End Handler.
End Booking.

(** ** lambda/notification_handler.py *)

Module Notification.

(** The module's configuration and the clock; [utcnow_isoformat i] is the
    reading taken while the record at position [i] is processed. *)
Record env : Type := mkEnv {
  ENVIRONMENT : string;
  utcnow_isoformat : nat -> string
}.

Section Handler.
Context `{PyRuntime}.
Variable e : env.

Definition process_notification (now : string) (message : value) : M value :=
  booking_id <- lift (py_get message "booking_id" VNone) ;;
  user_email <- lift (py_get message "user_email" VNone) ;;
  user_name <- lift (py_get message "user_name" VNone) ;;
  event_id <- lift (py_get message "event_id" VNone) ;;
  action <- lift (py_get message "action" (VStr "unknown")) ;;
  timestamp <- lift (py_get message "timestamp" (VStr now)) ;;
  let notification_log :=
    VDict
      [("type", VStr "email_notification");
       ("action", action);
       ("recipient", user_email);
       ("subject", VStr ("Event Booking Confirmation - " ++ py_str event_id));
       ("message", VStr ("Hello " ++ py_str user_name ++ ", your booking "
                         ++ py_str booking_id ++ " has been confirmed!"));
       ("timestamp", timestamp)] in
  print ("📧 Notification sent: " ++ json_dumps_indent2 notification_log) ;;
  ret notification_log.

(** The body of the [for] loop: [true] when the record was processed,
    [false] when the [except] clause ran. *)
Definition process_record (i : nat) (record : value) : M bool :=
  try_except
    (raw <- lift (py_getitem record "body") ;;
     message_body <- lift (py_json_loads raw) ;;
     process_notification (utcnow_isoformat e i) message_body ;;
     ret true)
    (fun ex => Some (
       print ("Error processing message: " ++ str_exn ex) ;;
       ret false)).

Fixpoint process_records (i : nat) (records : list value)
    (processed_count failed_count : Z) : M (Z * Z) :=
  match records with
  | [] => ret (processed_count, failed_count)
  | record :: rest =>
      ok <- process_record i record ;;
      if ok then process_records (S i) rest (processed_count + 1) failed_count
      else process_records (S i) rest processed_count (failed_count + 1)
  end.

Definition lambda_handler (event : dict) : M value :=
  print ("Notification handler triggered in " ++ ENVIRONMENT e ++ " environment") ;;
  batch <- lift (py_getitem (VDict event) "Records") ;;
  records <- lift (py_iter batch) ;;
  counts <- process_records 0 records 0 0 ;;
  let processed_count := fst counts in
  let failed_count := snd counts in
  print ("Processed " ++ str_of_Z processed_count ++ " notifications, "
         ++ str_of_Z failed_count ++ " failed") ;;
  ret (VDict
    [("statusCode", VInt 200);
     ("body", VStr (json_dumps (VDict
        [("processed", VInt processed_count);
         ("failed", VInt failed_count)])))]).

End Handler.
End Notification.

(** ** A small runtime and sample data for the examples *)

(** The double quote character, as a one-character [str]. *)
Definition dquote : string := String (ascii_of_nat 34) EmptyString.

(** Compact JSON text of a value; no character is escaped. *)
Fixpoint render (v : value) : string :=
  match v with
  | VNone => "null"
  | VBool true => "true"
  | VBool false => "false"
  | VInt z => str_of_Z z
  | VStr s => dquote ++ s ++ dquote
  | VList l =>
      "[" ++
      (fix go (l : list value) : string :=
         match l with
         | [] => ""
         | x :: rest =>
             render x ++ match rest with [] => "" | _ => ", " ++ go rest end
         end) l
      ++ "]"
  | VDict d =>
      "{" ++
      (fix go (d : dict) : string :=
         match d with
         | [] => ""
         | (k, x) :: rest =>
             dquote ++ k ++ dquote ++ ": " ++ render x
             ++ match rest with [] => "" | _ => ", " ++ go rest end
         end) d
      ++ "}"
  end.

(** A parser that knows the texts of a given list of values and rejects
    every other string. *)
Definition loads_among (known : list value) (s : string) : exn + value :=
  match find (fun v => String.eqb (render v) s) known with
  | Some v => inr v
  | None => inl (JSONDecodeError "Expecting value: line 1 column 1 (char 0)")
  end.

Definition sample_full_body : value :=
  VDict [("event_id", VStr "event-123");
         ("user_name", VStr "");
         ("user_email", VStr "john@example.com")].

Definition sample_body_without_email : value :=
  VDict [("event_id", VStr "event-123"); ("user_name", VStr "John Doe")].

Definition sample_notification : value :=
  VDict [("booking_id", VStr "booking-0001");
         ("event_id", VStr "event-123");
         ("user_email", VStr "john@example.com");
         ("user_name", VStr "John Doe");
         ("action", VStr "booking_created");
         ("timestamp", VStr "2024-01-01T00:00:00")].

Definition sample_runtime : PyRuntime := {|
  json_loads := loads_among [sample_full_body; sample_body_without_email;
                             sample_notification; VInt 7];
  json_dumps := render;
  json_dumps_decimal := render;
  json_dumps_indent2 := render;
  py_repr := render
|}.

Definition empty_world : world := mkWorld [] [] [] [].

Definition sample_env : Booking.env :=
  Booking.mkEnv "https://sqs.local/bookings" "0001" "2024-01-01T00:00:00"
                None None None None.

Definition sample_env_2 : Booking.env :=
  Booking.mkEnv "https://sqs.local/bookings" "0002" "2024-01-01T00:00:05"
                None None None None.

(** The queue refuses the message. *)
Definition sample_env_queue_down : Booking.env :=
  Booking.mkEnv "https://sqs.local/bookings" "0001" "2024-01-01T00:00:00"
                None (Some (ClientError "queue unavailable")) None None.

Definition sample_post (body : value) : dict :=
  [("httpMethod", VStr "POST"); ("body", VStr (render body))].

Definition sample_get (params : value) : dict :=
  [("httpMethod", VStr "GET"); ("queryStringParameters", params)].

Definition sample_booking (event_id booking_id : string) : dict :=
  [("event_id", VStr event_id);
   ("booking_id", VStr booking_id);
   ("user_name", VStr "John Doe");
   ("user_email", VStr "john@example.com");
   ("booking_status", VStr "confirmed");
   ("created_at", VStr "2024-01-01T00:00:00")].

(** Two bookings of one event and one of another. *)
Definition sample_table : world :=
  mkWorld [sample_booking "event-123" "booking-a";
           sample_booking "event-456" "booking-b";
           sample_booking "event-123" "booking-c"] [] [] [].

Definition sample_notification_env : Notification.env :=
  Notification.mkEnv "dev" (fun _ => "2024-01-02T00:00:00").

(** ** What [create_booking] assembles *)

(** [booking_item] for the three values read from the body. *)
Definition booking_of (e : Booking.env) (event_id user_name user_email : value) : dict :=
  [("event_id", event_id);
   ("booking_id", VStr ("booking-" ++ Booking.uuid4 e));
   ("user_name", user_name);
   ("user_email", user_email);
   ("booking_status", VStr "confirmed");
   ("created_at", VStr (Booking.utcnow_isoformat e))].

(** [notification_message] for the same three values. *)
Definition notification_of (e : Booking.env) (event_id user_name user_email : value) : dict :=
  [("booking_id", VStr ("booking-" ++ Booking.uuid4 e));
   ("event_id", event_id);
   ("user_email", user_email);
   ("user_name", user_name);
   ("action", VStr "booking_created");
   ("timestamp", VStr (Booking.utcnow_isoformat e))].

(** The headers every Booking Service response carries. *)
Definition json_cors_headers : value :=
  VDict [("Content-Type", VStr "application/json");
         ("Access-Control-Allow-Origin", VStr "*")].

(** ** What a listing request asks for *)

(** No [event_id] filter: the event has no query parameters, or they are
    [None], or they are a dict without the key. *)
Definition event_id_absent (event : dict) : Prop :=
  dict_get event "queryStringParameters" = None
  \/ dict_get event "queryStringParameters" = Some VNone
  \/ exists qp, dict_get event "queryStringParameters" = Some (VDict qp)
                /\ dict_get qp "event_id" = None.

(** The value [get_bookings] tests for truth. *)
Definition requested_event_id (event : dict) : exn + value :=
  let params := dict_get_default event "queryStringParameters" (VDict []) in
  py_get (if truthy params then params else VDict []) "event_id" VNone.

(** The uniform envelope: a known status, the two headers, and a body
    that is the serialisation of an object. *)
Definition enveloped `{PyRuntime} (response : value) : Prop :=
  exists (d : dict) (status : Z) (payload : dict),
    response = VDict d
    /\ dict_get d "statusCode" = Some (VInt status)
    /\ In status [201; 400; 200; 405; 500]%Z
    /\ dict_get d "headers" = Some json_cors_headers
    /\ (dict_get d "body" = Some (VStr (json_dumps (VDict payload)))
        \/ dict_get d "body" = Some (VStr (json_dumps_decimal (VDict payload)))).

(** ** What the consumer does with one record *)

(** Whether a record goes through the [try] block without an exception:
    it has a [body], the body is a string of valid JSON, and the parsed
    message has a [get] method. *)
Definition record_ok `{PyRuntime} (record : value) : bool :=
  match py_getitem record "body" with
  | inr raw =>
      match py_json_loads raw with
      | inr (VDict _) => true
      | _ => false
      end
  | inl _ => false
  end.

(** More sample data: a table and a queue that refuse their calls, and
    a request whose notification the sample parser can read back. *)
Definition sample_env_table_down : Booking.env :=
  Booking.mkEnv "https://sqs.local/bookings" "0001" "2024-01-01T00:00:00"
                (Some (ClientError "table unavailable")) None None None.

Definition sample_env_reads_down : Booking.env :=
  Booking.mkEnv "https://sqs.local/bookings" "0001" "2024-01-01T00:00:00"
                None None (Some (ClientError "query refused"))
                (Some (ClientError "scan refused")).

Definition sample_body_john : value :=
  VDict [("event_id", VStr "event-123");
         ("user_name", VStr "John Doe");
         ("user_email", VStr "john@example.com")].

Definition sample_runtime_john : PyRuntime := {|
  json_loads := loads_among [sample_body_john; sample_notification];
  json_dumps := render;
  json_dumps_decimal := render;
  json_dumps_indent2 := render;
  py_repr := render
|}.

(** ** The answers of the Booking Service and the traces it leaves *)

(** The 400 answer of [create_booking] with a given error text. *)
Definition bad_request `{PyRuntime} (msg : string) : value :=
  VDict
    [("statusCode", VInt 400);
     ("headers", VDict [("Content-Type", VStr "application/json");
                        ("Access-Control-Allow-Origin", VStr "*")]);
     ("body", VStr (json_dumps (VDict [("error", VStr msg)])))].

(** The 405 answer of [lambda_handler]. *)
Definition method_not_allowed `{PyRuntime} : value :=
  VDict
    [("statusCode", VInt 405);
     ("headers", VDict [("Content-Type", VStr "application/json");
                        ("Access-Control-Allow-Origin", VStr "*")]);
     ("body", VStr (json_dumps (VDict [("error", VStr "Method not allowed")])))].

(** The 500 answer of [lambda_handler] to the exception [ex]. *)
Definition internal_error `{PyRuntime} (ex : exn) : value :=
  VDict
    [("statusCode", VInt 500);
     ("headers", VDict [("Content-Type", VStr "application/json");
                        ("Access-Control-Allow-Origin", VStr "*")]);
     ("body", VStr (json_dumps (VDict
        [("error", VStr "Internal server error");
         ("message", VStr (str_exn ex))])))].

(** The 200 answer of [get_bookings]. *)
Definition listing `{PyRuntime} (message : string) (bookings : list dict) : value :=
  VDict
    [("statusCode", VInt 200);
     ("headers", VDict [("Content-Type", VStr "application/json");
                        ("Access-Control-Allow-Origin", VStr "*")]);
     ("body", VStr (json_dumps_decimal (VDict
        [("message", VStr message);
         ("bookings", VList (map VDict bookings))])))].

(** The 201 answer of [create_booking]. *)
Definition created `{PyRuntime} (booking : dict) : value :=
  VDict
    [("statusCode", VInt 201);
     ("headers", VDict [("Content-Type", VStr "application/json");
                        ("Access-Control-Allow-Origin", VStr "*")]);
     ("body", VStr (json_dumps_decimal (VDict
        [("message", VStr "Booking created successfully");
         ("booking", VDict booking)])))].

(** The world after more lines were printed. *)
Definition with_stdout (w : world) (lines : list string) : world :=
  mkWorld (table_items w) (queue_msgs w) (aws_calls w) (stdout w ++ lines).

(** The first line [lambda_handler] of the Booking Service prints. *)
Definition received_line `{PyRuntime} (event : dict) : string :=
  "Received event: " ++ json_dumps (VDict event).

(** [statusCode] of a response. *)
Definition status_of (response : value) : option value :=
  match response with
  | VDict d => dict_get d "statusCode"
  | _ => None
  end.

(** A request that passes the validation of [create_booking]: the body
    is a string that parses to an object holding the three fields. *)
Definition valid_request `{PyRuntime} (event : dict) (eid un ue : value) : Prop :=
  exists s kvs,
    dict_get event "body" = Some (VStr s)
    /\ json_loads s = inr (VDict kvs)
    /\ dict_get kvs "event_id" = Some eid
    /\ dict_get kvs "user_name" = Some un
    /\ dict_get kvs "user_email" = Some ue.

(** One queue delivery, as the consumer reads it: a record whose [body]
    is the text that was published. *)
Definition delivery (text : string) : value := VDict [("body", VStr text)].

(** Neither the table, nor the queue, nor the call log changed. *)
Definition quiet (w w' : world) : Prop :=
  table_items w' = table_items w
  /\ queue_msgs w' = queue_msgs w
  /\ aws_calls w' = aws_calls w.

(** A single read of the table was issued and nothing else changed. *)
Definition one_read (w w' : world) : Prop :=
  table_items w' = table_items w
  /\ queue_msgs w' = queue_msgs w
  /\ exists c, (c = Scan \/ exists v, c = Query v)
               /\ aws_calls w' = (aws_calls w ++ [c])%list.

(** * Properties *)

Ltac run_monad :=
  unfold bind, try_except, lift, ret, raise, print, log_call; simpl.

Section BookingProperties.
Context `{PyRuntime}.

(** A request that passes validation: the write is issued, then the
    publish; what follows depends on the publish alone. *)
Lemma create_booking_valid (e : Booking.env) (event : dict) (w : world)
    (s : string) (kvs : dict) (eid un ue : value) :
  dict_get event "body" = Some (VStr s) ->
  json_loads s = inr (VDict kvs) ->
  dict_get kvs "event_id" = Some eid ->
  dict_get kvs "user_name" = Some un ->
  dict_get kvs "user_email" = Some ue ->
  Booking.put_item_fault e = None ->
  Booking.create_booking e event w =
    let booking := booking_of e eid un ue in
    let text := json_dumps (VDict (notification_of e eid un ue)) in
    let calls := ((aws_calls w ++ [PutItem booking])
                  ++ [SendMessage (Booking.SQS_QUEUE_URL e) text])%list in
    let out := (stdout w
                ++ [("Created booking: " ++ "booking-" ++ Booking.uuid4 e)%string])%list in
    match Booking.send_message_fault e with
    | Some ex =>
        (mkWorld (table_put booking (table_items w)) (queue_msgs w) calls out, inl ex)
    | None =>
        (mkWorld (table_put booking (table_items w)) (queue_msgs w ++ [text]) calls
           (out ++ [("Sent notification to SQS for booking: " ++ "booking-"
                     ++ Booking.uuid4 e)%string])%list,
         inr (VDict
           [("statusCode", VInt 201);
            ("headers", json_cors_headers);
            ("body", VStr (json_dumps_decimal (VDict
               [("message", VStr "Booking created successfully");
                ("booking", VDict booking)])))]))
    end.
Proof.
  intros Hbody Hparse Heid Hun Hue Hput.
  unfold Booking.create_booking, Booking.validate_required, Booking.put_item,
    Booking.send_message, py_getitem, py_json_loads, py_contains, dict_mem.
  run_monad.
  rewrite Hbody. simpl. rewrite Hparse. simpl. rewrite Heid, Hun, Hue. simpl.
  rewrite Hput. simpl.
  destruct (Booking.send_message_fault e); reflexivity.
Qed.

(** *** The table *)

Lemma table_put_In (item : dict) (items : list dict) :
  In item (table_put item items).
Proof.
  induction items as [|old rest IH]; simpl.
  - now left.
  - destruct (same_key old item); simpl; auto.
Qed.

Lemma table_put_keeps (item other : dict) (items : list dict) :
  In other items -> same_key other item = false ->
  In other (table_put item items).
Proof.
  intros Hin Hkey.
  induction items as [|old rest IH]; simpl in *; [contradiction|].
  destruct Hin as [-> | Hin].
  - rewrite Hkey. now left.
  - destruct (same_key old item); simpl; auto.
Qed.

Lemma booking_keys_differ (e1 e2 : Booking.env) (eid un ue : value) :
  Booking.uuid4 e1 <> Booking.uuid4 e2 ->
  same_key (booking_of e1 eid un ue) (booking_of e2 eid un ue) = false.
Proof.
  intros Hne. unfold same_key. simpl.
  apply String.eqb_neq in Hne. rewrite Hne. apply andb_false_r.
Qed.

(** *** Creation *)

(** C1. A POST whose body parses as an object holding [event_id],
    [user_name] and [user_email] (whatever their values, empty strings
    included) is answered 201 by [lambda_handler], as long as the store
    and the queue accept their calls.  The body is the serialisation of
    [{message, booking}]; the booking holds the caller's three values
    unchanged, status [confirmed], an identifier prefixed [booking-] and
    the creation time.  The call log grows by one [PutItem] of that
    booking followed by one [SendMessage], whose text serialises a
    message with the same identifier, values and time and the action
    [booking_created]. *)
Theorem create_booking_returns_201 (e : Booking.env) (event : dict) (w : world)
    (s : string) (kvs : dict) (eid un ue : value) :
  dict_get event "httpMethod" = Some (VStr "POST") ->
  dict_get event "body" = Some (VStr s) ->
  json_loads s = inr (VDict kvs) ->
  dict_get kvs "event_id" = Some eid ->
  dict_get kvs "user_name" = Some un ->
  dict_get kvs "user_email" = Some ue ->
  Booking.put_item_fault e = None ->
  Booking.send_message_fault e = None ->
  let booking :=
    [("event_id", eid);
     ("booking_id", VStr ("booking-" ++ Booking.uuid4 e));
     ("user_name", un);
     ("user_email", ue);
     ("booking_status", VStr "confirmed");
     ("created_at", VStr (Booking.utcnow_isoformat e))] in
  let notification :=
    [("booking_id", VStr ("booking-" ++ Booking.uuid4 e));
     ("event_id", eid);
     ("user_email", ue);
     ("user_name", un);
     ("action", VStr "booking_created");
     ("timestamp", VStr (Booking.utcnow_isoformat e))] in
  exists w',
    Booking.lambda_handler e event w =
      (w', inr (VDict
         [("statusCode", VInt 201);
          ("headers", VDict [("Content-Type", VStr "application/json");
                             ("Access-Control-Allow-Origin", VStr "*")]);
          ("body", VStr (json_dumps_decimal (VDict
             [("message", VStr "Booking created successfully");
              ("booking", VDict booking)])))]))
    /\ table_items w' = table_put booking (table_items w)
    /\ queue_msgs w' = (queue_msgs w ++ [json_dumps (VDict notification)])%list
    /\ aws_calls w' =
         (aws_calls w ++
          [PutItem booking;
           SendMessage (Booking.SQS_QUEUE_URL e) (json_dumps (VDict notification))])%list.
Proof.
  intros Hmethod Hbody Hparse Heid Hun Hue Hput Hsend booking notification.
  unfold Booking.lambda_handler, dict_get_default.
  rewrite Hmethod.
  unfold bind at 1, print at 1, try_except. cbv beta iota. simpl py_eq_str.
  cbv beta iota.
  rewrite (create_booking_valid e event _ s kvs eid un ue Hbody Hparse Heid Hun Hue Hput).
  rewrite Hsend. cbv zeta.
  eexists. split; [reflexivity|]. simpl.
  repeat split. now rewrite <- app_assoc.
Qed.

(** C2. When the body parses as an object that lacks one of the three
    keys, [create_booking] answers 400 and names one field: the first of
    [event_id], [user_name], [user_email] that is missing.  The world is
    left as it was: nothing is written, nothing is published. *)
Theorem missing_field_yields_400 (e : Booking.env) (event : dict) (w : world)
    (s : string) (kvs : dict) :
  dict_get event "body" = Some (VStr s) ->
  json_loads s = inr (VDict kvs) ->
  dict_mem "event_id" kvs && dict_mem "user_name" kvs && dict_mem "user_email" kvs
    = false ->
  exists field,
    find (fun f => negb (dict_mem f kvs)) ["event_id"; "user_name"; "user_email"]
      = Some field
    /\ Booking.create_booking e event w =
         (w, inr (VDict
            [("statusCode", VInt 400);
             ("headers", VDict [("Content-Type", VStr "application/json");
                                ("Access-Control-Allow-Origin", VStr "*")]);
             ("body", VStr (json_dumps (VDict
                [("error", VStr ("Missing required field: " ++ field))])))])).
Proof.
  intros Hbody Hparse Hlacks.
  unfold Booking.create_booking, Booking.validate_required,
    py_getitem, py_json_loads, py_contains.
  run_monad. rewrite Hbody. simpl. rewrite Hparse. simpl.
  destruct (dict_mem "event_id" kvs); simpl;
    [|eexists; split; reflexivity].
  destruct (dict_mem "user_name" kvs); simpl;
    [|eexists; split; reflexivity].
  destruct (dict_mem "user_email" kvs); simpl;
    [discriminate|eexists; split; reflexivity].
Qed.

(** What the [except] clause of [create_booking] does catch: when the
    event has no [body] key, or its body is a string on which
    [json.loads] raises [JSONDecodeError], the answer is 400 with
    [{'error': 'Invalid request body'}] and the world is as it was. *)
Theorem invalid_body_yields_400 (e : Booking.env) (event : dict) (w : world) :
  dict_get event "body" = None
  \/ (exists s msg, dict_get event "body" = Some (VStr s)
                    /\ json_loads s = inl (JSONDecodeError msg)) ->
  Booking.create_booking e event w =
    (w, inr (VDict
       [("statusCode", VInt 400);
        ("headers", VDict [("Content-Type", VStr "application/json");
                           ("Access-Control-Allow-Origin", VStr "*")]);
        ("body", VStr (json_dumps (VDict [("error", VStr "Invalid request body")])))])).
Proof.
  intros [Habsent | (s & msg & Hbody & Hparse)];
    unfold Booking.create_booking, py_getitem, py_json_loads; run_monad.
  - rewrite Habsent. reflexivity.
  - rewrite Hbody. simpl. rewrite Hparse. reflexivity.
Qed.

(** C3. The claim fails on a request without a body as API Gateway
    delivers it, with [body] set to [None]: [json.loads(None)] raises
    [TypeError], which the [except] clause of [create_booking] does not
    name, so [create_booking] raises instead of answering 400, and
    [lambda_handler] answers 500 with the text of the exception.  This
    holds for every JSON library, environment and world. *)
Theorem null_body_is_answered_500 (e : Booking.env) (w : world) :
  let event := [("httpMethod", VStr "POST"); ("body", VNone)] in
  let msg := "the JSON object must be str, bytes or bytearray, not NoneType" in
  Booking.create_booking e event w = (w, inl (TypeError msg))
  /\ Booking.lambda_handler e event w =
       (mkWorld (table_items w) (queue_msgs w) (aws_calls w)
          (stdout w ++ [("Received event: " ++ json_dumps (VDict event))%string;
                        ("Error: " ++ msg)%string]),
        inr (VDict
          [("statusCode", VInt 500);
           ("headers", VDict [("Content-Type", VStr "application/json");
                              ("Access-Control-Allow-Origin", VStr "*")]);
           ("body", VStr (json_dumps (VDict
              [("error", VStr "Internal server error");
               ("message", VStr msg)])))])).
Proof.
  split.
  - reflexivity.
  - unfold Booking.lambda_handler, Booking.create_booking, py_getitem, py_json_loads.
    unfold bind, try_except, lift, ret, raise, print. simpl.
    now rewrite <- app_assoc.
Qed.

(** The same happens when the body is a string on which [json.loads]
    raises something else than [JSONDecodeError] (a [RecursionError] on
    a text nested too deeply, a [ValueError] on an integer literal over
    the digit limit): the exception leaves [create_booking]. *)
Lemma uncaught_parse_error_raises (e : Booking.env) (event : dict) (w : world)
    (s : string) (ex : exn) :
  dict_get event "body" = Some (VStr s) ->
  json_loads s = inl ex ->
  (forall msg, ex <> JSONDecodeError msg) ->
  (forall key, ex <> KeyError key) ->
  Booking.create_booking e event w = (w, inl ex).
Proof.
  intros Hbody Hparse Hjson Hkey.
  unfold Booking.create_booking, py_getitem, py_json_loads.
  unfold bind, try_except, lift, ret, raise. simpl dict_get.
  rewrite Hbody, Hparse.
  destruct ex; try reflexivity.
  - now destruct (Hjson msg).
  - now destruct (Hkey key).
Qed.

(** A [body] that is present but is not a [str] ([None] for instance)
    makes [json.loads] raise [TypeError], which the [except] clause of
    [create_booking] does not name; the exception leaves
    [create_booking] and [lambda_handler] turns it into a 500. *)
Lemma body_not_a_string_raises (e : Booking.env) (event : dict) (w : world)
    (v : value) :
  dict_get event "body" = Some v ->
  (forall s, v <> VStr s) ->
  Booking.create_booking e event w =
    (w, inl (TypeError ("the JSON object must be str, bytes or bytearray, not "
                        ++ type_name v))).
Proof.
  intros Hbody Hnot.
  unfold Booking.create_booking, py_getitem, py_json_loads.
  unfold bind, try_except, lift, ret, raise. simpl dict_get. rewrite Hbody.
  destruct v; try reflexivity.
  now destruct (Hnot s).
Qed.

(** C4. On a valid creation request whose write succeeds and whose
    publish raises [ex], the booking is in the table when
    [lambda_handler] returns, the queue has received nothing, and the
    answer is 500 with [str(ex)] as its [message]. *)
Theorem publish_failure_keeps_booking (e : Booking.env) (event : dict) (w : world)
    (s : string) (kvs : dict) (eid un ue : value) (ex : exn) :
  dict_get event "httpMethod" = Some (VStr "POST") ->
  dict_get event "body" = Some (VStr s) ->
  json_loads s = inr (VDict kvs) ->
  dict_get kvs "event_id" = Some eid ->
  dict_get kvs "user_name" = Some un ->
  dict_get kvs "user_email" = Some ue ->
  Booking.put_item_fault e = None ->
  Booking.send_message_fault e = Some ex ->
  let booking :=
    [("event_id", eid);
     ("booking_id", VStr ("booking-" ++ Booking.uuid4 e));
     ("user_name", un);
     ("user_email", ue);
     ("booking_status", VStr "confirmed");
     ("created_at", VStr (Booking.utcnow_isoformat e))] in
  exists w',
    Booking.lambda_handler e event w =
      (w', inr (VDict
         [("statusCode", VInt 500);
          ("headers", VDict [("Content-Type", VStr "application/json");
                             ("Access-Control-Allow-Origin", VStr "*")]);
          ("body", VStr (json_dumps (VDict
             [("error", VStr "Internal server error");
              ("message", VStr (str_exn ex))])))]))
    /\ table_items w' = table_put booking (table_items w)
    /\ In booking (table_items w')
    /\ queue_msgs w' = queue_msgs w.
Proof.
  intros Hmethod Hbody Hparse Heid Hun Hue Hput Hsend booking.
  unfold Booking.lambda_handler, dict_get_default.
  rewrite Hmethod.
  unfold bind at 1, print at 1, try_except. cbv beta iota. simpl py_eq_str.
  cbv beta iota.
  rewrite (create_booking_valid e event _ s kvs eid un ue Hbody Hparse Heid Hun Hue Hput).
  rewrite Hsend. cbv zeta.
  eexists. split; [reflexivity|]. simpl.
  repeat split. apply table_put_In.
Qed.

(** C9. Creation is not idempotent.  Two successful calls with the same
    event, the second in the world the first one left, whose random
    identifiers differ, return bookings with different [booking_id], and
    both bookings are in the table afterwards. *)
Theorem create_not_idempotent (e1 e2 : Booking.env) (event : dict) (w : world)
    (s : string) (kvs : dict) (eid un ue : value) :
  dict_get event "body" = Some (VStr s) ->
  json_loads s = inr (VDict kvs) ->
  dict_get kvs "event_id" = Some eid ->
  dict_get kvs "user_name" = Some un ->
  dict_get kvs "user_email" = Some ue ->
  Booking.put_item_fault e1 = None -> Booking.send_message_fault e1 = None ->
  Booking.put_item_fault e2 = None -> Booking.send_message_fault e2 = None ->
  Booking.uuid4 e1 <> Booking.uuid4 e2 ->
  exists w1 w2 b1 b2,
    Booking.create_booking e1 event w =
      (w1, inr (VDict
         [("statusCode", VInt 201);
          ("headers", VDict [("Content-Type", VStr "application/json");
                             ("Access-Control-Allow-Origin", VStr "*")]);
          ("body", VStr (json_dumps_decimal (VDict
             [("message", VStr "Booking created successfully");
              ("booking", VDict b1)])))]))
    /\ Booking.create_booking e2 event w1 =
      (w2, inr (VDict
         [("statusCode", VInt 201);
          ("headers", VDict [("Content-Type", VStr "application/json");
                             ("Access-Control-Allow-Origin", VStr "*")]);
          ("body", VStr (json_dumps_decimal (VDict
             [("message", VStr "Booking created successfully");
              ("booking", VDict b2)])))]))
    /\ dict_get b1 "booking_id" = Some (VStr ("booking-" ++ Booking.uuid4 e1))
    /\ dict_get b2 "booking_id" = Some (VStr ("booking-" ++ Booking.uuid4 e2))
    /\ dict_get b1 "booking_id" <> dict_get b2 "booking_id"
    /\ In b1 (table_items w2)
    /\ In b2 (table_items w2).
Proof.
  intros Hbody Hparse Heid Hun Hue Hput1 Hsend1 Hput2 Hsend2 Hne.
  pose proof (create_booking_valid e1 event w s kvs eid un ue
                Hbody Hparse Heid Hun Hue Hput1) as H1.
  rewrite Hsend1 in H1. cbv zeta in H1.
  eexists. eexists. exists (booking_of e1 eid un ue), (booking_of e2 eid un ue).
  split; [exact H1|].
  split.
  - rewrite (create_booking_valid e2 event _ s kvs eid un ue
               Hbody Hparse Heid Hun Hue Hput2).
    rewrite Hsend2. cbv zeta. reflexivity.
  - simpl. repeat split.
    + intros Heq. apply Hne.
      injection Heq as Heq. exact Heq.
    + apply table_put_keeps; [apply table_put_In|].
      now apply booking_keys_differ.
    + apply table_put_In.
Qed.

(** *** Listing *)

Lemma get_bookings_query_path (e : Booking.env) (event : dict) (w : world) (v : value) :
  requested_event_id event = inr v -> truthy v = true ->
  Booking.get_bookings e event w =
    let w' := mkWorld (table_items w) (queue_msgs w)
                      (aws_calls w ++ [Query v]) (stdout w) in
    let bookings := partition v (table_items w) in
    match Booking.query_fault e with
    | Some ex => (w', inl ex)
    | None =>
        (w', inr (VDict
           [("statusCode", VInt 200);
            ("headers", json_cors_headers);
            ("body", VStr (json_dumps_decimal (VDict
               [("message", VStr ("Found " ++ str_of_nat (length bookings)
                                  ++ " booking(s) for event " ++ py_str v));
                ("bookings", VList (map VDict bookings))])))]))
    end.
Proof.
  unfold requested_event_id. intros Hreq Htruthy.
  unfold Booking.get_bookings, Booking.query.
  rewrite Hreq. run_monad. rewrite Htruthy.
  destruct (Booking.query_fault e); reflexivity.
Qed.

Lemma get_bookings_scan_path (e : Booking.env) (event : dict) (w : world) (v : value) :
  requested_event_id event = inr v -> truthy v = false ->
  Booking.get_bookings e event w =
    let w' := mkWorld (table_items w) (queue_msgs w)
                      (aws_calls w ++ [Scan]) (stdout w) in
    match Booking.scan_fault e with
    | Some ex => (w', inl ex)
    | None =>
        (w', inr (VDict
           [("statusCode", VInt 200);
            ("headers", json_cors_headers);
            ("body", VStr (json_dumps_decimal (VDict
               [("message", VStr ("Found " ++ str_of_nat (length (table_items w))
                                  ++ " total booking(s)"));
                ("bookings", VList (map VDict (table_items w)))])))]))
    end.
Proof.
  unfold requested_event_id. intros Hreq Hfalsy.
  unfold Booking.get_bookings, Booking.scan.
  rewrite Hreq. run_monad. rewrite Hfalsy.
  destruct (Booking.scan_fault e); reflexivity.
Qed.

Lemma requested_of_params (event qp : dict) (v : value) :
  dict_get event "queryStringParameters" = Some (VDict qp) ->
  dict_get qp "event_id" = Some v ->
  requested_event_id event = inr v.
Proof.
  intros Hparams Hid. unfold requested_event_id, dict_get_default.
  rewrite Hparams.
  destruct qp as [|kv rest]; [discriminate|].
  simpl truthy. cbv iota. unfold py_get, dict_get_default. now rewrite Hid.
Qed.

Lemma requested_of_absent (event : dict) :
  event_id_absent event -> requested_event_id event = inr VNone.
Proof.
  unfold requested_event_id, dict_get_default.
  intros [Hnone | [Hnull | (qp & Hparams & Hid)]].
  - rewrite Hnone. reflexivity.
  - rewrite Hnull. reflexivity.
  - rewrite Hparams. destruct qp as [|kv rest]; [reflexivity|].
    simpl truthy. cbv iota. unfold py_get, dict_get_default. now rewrite Hid.
Qed.

Lemma partition_spec (eid : string) (items : list dict) (item : dict) :
  In item (partition (VStr eid) items)
  <-> In item items /\ dict_get item "event_id" = Some (VStr eid).
Proof.
  unfold partition. rewrite filter_In.
  split; intros [Hin Hkey]; split; auto.
  - destruct (dict_get item "event_id") as [[]|]; simpl in Hkey; try discriminate.
    apply String.eqb_eq in Hkey. now subst.
  - rewrite Hkey. simpl. apply String.eqb_refl.
Qed.

(** C5. Listing.  With a non-empty [event_id] query parameter and a
    query that does not raise, [get_bookings] answers 200 with exactly
    the items of the table whose [event_id] is that value, and a message
    giving how many they are.  With no [event_id] parameter and a scan
    that does not raise, it answers 200 with every item of the table and
    a message giving the total.  Either list may be empty. *)
Theorem get_bookings_filters_or_lists_all (e : Booking.env) (event : dict) (w : world) :
  (forall (qp : dict) (eid : string),
     dict_get event "queryStringParameters" = Some (VDict qp) ->
     dict_get qp "event_id" = Some (VStr eid) ->
     eid <> "" ->
     Booking.query_fault e = None ->
     exists w' bookings,
       Booking.get_bookings e event w =
         (w', inr (VDict
            [("statusCode", VInt 200);
             ("headers", VDict [("Content-Type", VStr "application/json");
                                ("Access-Control-Allow-Origin", VStr "*")]);
             ("body", VStr (json_dumps_decimal (VDict
                [("message", VStr ("Found " ++ str_of_nat (length bookings)
                                   ++ " booking(s) for event " ++ eid));
                 ("bookings", VList (map VDict bookings))])))]))
       /\ bookings = filter (fun item => opt_value_eqb (dict_get item "event_id")
                                                       (Some (VStr eid)))
                            (table_items w)
       /\ (forall item, In item bookings <->
             In item (table_items w) /\ dict_get item "event_id" = Some (VStr eid))
       /\ table_items w' = table_items w
       /\ aws_calls w' = (aws_calls w ++ [Query (VStr eid)])%list)
  /\
  (event_id_absent event ->
   Booking.scan_fault e = None ->
   exists w',
     Booking.get_bookings e event w =
       (w', inr (VDict
          [("statusCode", VInt 200);
           ("headers", VDict [("Content-Type", VStr "application/json");
                              ("Access-Control-Allow-Origin", VStr "*")]);
           ("body", VStr (json_dumps_decimal (VDict
              [("message", VStr ("Found " ++ str_of_nat (length (table_items w))
                                 ++ " total booking(s)"));
               ("bookings", VList (map VDict (table_items w)))])))]))
     /\ table_items w' = table_items w
     /\ aws_calls w' = (aws_calls w ++ [Scan])%list).
Proof.
  split.
  - intros qp eid Hparams Hid Hne Hquery.
    assert (Htruthy : truthy (VStr eid) = true).
    { simpl. apply String.eqb_neq in Hne. now rewrite Hne. }
    rewrite (get_bookings_query_path e event w (VStr eid)
               (requested_of_params event qp _ Hparams Hid) Htruthy).
    rewrite Hquery. cbv zeta.
    eexists. exists (partition (VStr eid) (table_items w)).
    split; [reflexivity|]. split; [reflexivity|].
    split; [intros item; apply partition_spec|].
    split; reflexivity.
  - intros Habsent Hscan.
    rewrite (get_bookings_scan_path e event w VNone
               (requested_of_absent event Habsent) eq_refl).
    rewrite Hscan. cbv zeta.
    eexists. split; [reflexivity|]. split; reflexivity.
Qed.

(** C10. An [event_id] parameter whose value is the empty string is
    falsy, so [get_bookings] takes the branch of the absent parameter: it
    does exactly what it does on any event without the parameter, issues
    a [Scan] and no [Query], and when the scan succeeds reports the total
    count over the whole table. *)
Theorem empty_event_id_is_full_scan (e : Booking.env) (event : dict) (w : world)
    (qp : dict) :
  dict_get event "queryStringParameters" = Some (VDict qp) ->
  dict_get qp "event_id" = Some (VStr "") ->
  (forall event', event_id_absent event' ->
     Booking.get_bookings e event w = Booking.get_bookings e event' w)
  /\ aws_calls (fst (Booking.get_bookings e event w)) = (aws_calls w ++ [Scan])%list
  /\ (Booking.scan_fault e = None ->
      snd (Booking.get_bookings e event w) =
        inr (VDict
          [("statusCode", VInt 200);
           ("headers", VDict [("Content-Type", VStr "application/json");
                              ("Access-Control-Allow-Origin", VStr "*")]);
           ("body", VStr (json_dumps_decimal (VDict
              [("message", VStr ("Found " ++ str_of_nat (length (table_items w))
                                 ++ " total booking(s)"));
               ("bookings", VList (map VDict (table_items w)))])))])).
Proof.
  intros Hparams Hid.
  pose proof (get_bookings_scan_path e event w (VStr "")
                (requested_of_params event qp _ Hparams Hid) eq_refl) as Hempty.
  cbv zeta in Hempty.
  split; [|split].
  - intros event' Habsent. rewrite Hempty.
    rewrite (get_bookings_scan_path e event' w VNone
               (requested_of_absent event' Habsent) eq_refl).
    reflexivity.
  - rewrite Hempty. destruct (Booking.scan_fault e); reflexivity.
  - intros Hscan. rewrite Hempty, Hscan. reflexivity.
Qed.

(** *** The envelope *)

Ltac show_enveloped :=
  unfold enveloped, json_cors_headers; simpl;
  do 3 eexists;
  split; [reflexivity|];
  split; [reflexivity|];
  split; [simpl; tauto|];
  split; [reflexivity|];
  first [left; reflexivity | right; reflexivity].

Lemma validate_required_enveloped (fields : list string) (body : value) (w : world) :
  exists r, Booking.validate_required fields body w = (w, r)
            /\ match r with
               | inr (Some response) => enveloped response
               | _ => True
               end.
Proof.
  induction fields as [|field rest IH]; simpl.
  - eexists. split; [reflexivity|exact I].
  - unfold bind, lift. destruct (py_contains field body) as [ex|present]; simpl.
    + eexists. split; [reflexivity|exact I].
    + destruct present; simpl; [exact IH|].
      eexists. split; [reflexivity|]. show_enveloped.
Qed.

Lemma create_booking_enveloped (e : Booking.env) (event : dict) (w : world) :
  match snd (Booking.create_booking e event w) with
  | inr response => enveloped response
  | inl _ => True
  end.
Proof.
  unfold Booking.create_booking.
  unfold bind at 1.
  destruct (try_except _ _ w) as [w0 [ex|[response|body]]] eqn:Htry;
    [exact I| |].
  - unfold try_except, bind, lift, ret, raise in Htry.
    destruct (py_getitem (VDict event) "body") as [ex|raw]; simpl in Htry.
    + destruct ex; inversion Htry; subst; show_enveloped.
    + destruct (py_json_loads raw) as [ex|parsed]; simpl in Htry.
      * destruct ex; inversion Htry; subst; show_enveloped.
      * inversion Htry.
  - unfold bind at 1.
    destruct (validate_required_enveloped ["event_id"; "user_name"; "user_email"]
                body w0) as (r & -> & Hr).
    destruct r as [ex|[response|]]; simpl; [exact I|exact Hr|].
    unfold Booking.put_item, Booking.send_message.
    run_monad.
    destruct (py_getitem body "event_id"); simpl; [exact I|].
    destruct (py_getitem body "user_name"); simpl; [exact I|].
    destruct (py_getitem body "user_email"); simpl; [exact I|].
    destruct (Booking.put_item_fault e); simpl; [exact I|].
    destruct (Booking.send_message_fault e); simpl; [exact I|].
    show_enveloped.
Qed.

Lemma get_bookings_enveloped (e : Booking.env) (event : dict) (w : world) :
  match snd (Booking.get_bookings e event w) with
  | inr response => enveloped response
  | inl _ => True
  end.
Proof.
  unfold Booking.get_bookings, Booking.query, Booking.scan.
  run_monad.
  destruct (py_get _ "event_id" VNone) as [ex|event_id]; simpl; [exact I|].
  destruct (truthy event_id); simpl.
  - destruct (Booking.query_fault e); simpl; [exact I|]. show_enveloped.
  - destruct (Booking.scan_fault e); simpl; [exact I|]. show_enveloped.
Qed.

(** C8. Whatever the event and the world, [lambda_handler] returns a
    response and never raises; the status is one of 201, 400, 200, 405
    and 500, the headers are [Content-Type: application/json] and
    [Access-Control-Allow-Origin: *], and the body is the JSON text of an
    object. *)
Theorem responses_carry_json_cors_headers (e : Booking.env) (event : dict) (w : world) :
  exists (w' : world) (response : dict) (status : Z) (payload : dict),
    Booking.lambda_handler e event w = (w', inr (VDict response))
    /\ dict_get response "statusCode" = Some (VInt status)
    /\ In status [201; 400; 200; 405; 500]%Z
    /\ dict_get response "headers" =
         Some (VDict [("Content-Type", VStr "application/json");
                      ("Access-Control-Allow-Origin", VStr "*")])
    /\ (dict_get response "body" = Some (VStr (json_dumps (VDict payload)))
        \/ dict_get response "body" = Some (VStr (json_dumps_decimal (VDict payload)))).
Proof.
  assert (Hgoal : forall w0 r,
    (match r with inr response => enveloped response | inl _ => True end) ->
    exists (w' : world) (response : dict) (status : Z) (payload : dict),
      (match r return world * (exn + value) with
       | inr a => (w0, inr a)
       | inl ex =>
           (mkWorld (table_items w0) (queue_msgs w0) (aws_calls w0)
                    (stdout w0 ++ [("Error: " ++ str_exn ex)%string]),
            inr (VDict
              [("statusCode", VInt 500);
               ("headers", VDict [("Content-Type", VStr "application/json");
                                  ("Access-Control-Allow-Origin", VStr "*")]);
               ("body", VStr (json_dumps (VDict
                  [("error", VStr "Internal server error");
                   ("message", VStr (str_exn ex))])))]))
       end) = (w', inr (VDict response))
      /\ dict_get response "statusCode" = Some (VInt status)
      /\ In status [201; 400; 200; 405; 500]%Z
      /\ dict_get response "headers" =
           Some (VDict [("Content-Type", VStr "application/json");
                        ("Access-Control-Allow-Origin", VStr "*")])
      /\ (dict_get response "body" = Some (VStr (json_dumps (VDict payload)))
          \/ dict_get response "body" = Some (VStr (json_dumps_decimal (VDict payload))))).
  { intros w0 [ex|response] Hr.
    - do 4 eexists. split; [reflexivity|]. simpl.
      split; [reflexivity|]. split; [tauto|]. split; [reflexivity|].
      left; reflexivity.
    - destruct Hr as (d & status & payload & -> & Hs & Hin & Hh & Hb).
      exists w0, d, status, payload. auto. }
  unfold Booking.lambda_handler.
  unfold bind at 1, print at 1, try_except. cbv beta iota.
  set (w1 := mkWorld _ _ _ _).
  destruct (py_eq_str _ "POST").
  - pose proof (create_booking_enveloped e event w1) as Hc.
    destruct (Booking.create_booking e event w1) as [w2 r]. simpl in Hc.
    destruct r as [ex|response]; [|exact (Hgoal w2 (inr response) Hc)].
    exact (Hgoal w2 (inl ex) I).
  - destruct (py_eq_str _ "GET").
    + pose proof (get_bookings_enveloped e event w1) as Hc.
      destruct (Booking.get_bookings e event w1) as [w2 r]. simpl in Hc.
      destruct r as [ex|response]; [|exact (Hgoal w2 (inr response) Hc)].
      exact (Hgoal w2 (inl ex) I).
    + unfold ret. do 4 eexists. split; [reflexivity|]. simpl.
      split; [reflexivity|]. split; [tauto|]. split; [reflexivity|].
      left; reflexivity.
Qed.

End BookingProperties.

Section NotificationProperties.
Context `{PyRuntime}.

(** C7. For a message that is a JSON object, [process_notification]
    returns (and prints) a record whose [action] is the message's, or
    [unknown] when the key is absent; whose [timestamp] is the message's,
    or the clock reading when absent; whose [subject] ends with the
    message's [event_id]; and whose [message] names its [user_name] and
    [booking_id].  Nothing but standard output changes. *)
Theorem notification_record_fields (now : string) (d : dict) (w : world) :
  let notification :=
    VDict
      [("type", VStr "email_notification");
       ("action", dict_get_default d "action" (VStr "unknown"));
       ("recipient", dict_get_default d "user_email" VNone);
       ("subject", VStr ("Event Booking Confirmation - "
                         ++ py_str (dict_get_default d "event_id" VNone)));
       ("message", VStr ("Hello " ++ py_str (dict_get_default d "user_name" VNone)
                         ++ ", your booking "
                         ++ py_str (dict_get_default d "booking_id" VNone)
                         ++ " has been confirmed!"));
       ("timestamp", dict_get_default d "timestamp" (VStr now))] in
  Notification.process_notification now (VDict d) w =
    (mkWorld (table_items w) (queue_msgs w) (aws_calls w)
             (stdout w ++ [("📧 Notification sent: "
                            ++ json_dumps_indent2 notification)%string]),
     inr notification).
Proof. reflexivity. Qed.

Lemma process_notification_needs_dict (now : string) (message : value) (w : world) :
  (forall d, message <> VDict d) ->
  exists ex, Notification.process_notification now message w = (w, inl ex).
Proof.
  intros Hnot. destruct message; try (eexists; reflexivity).
  now destruct (Hnot d).
Qed.





End NotificationProperties.

(** * Runs on the sample data *)

(** A creation request with an empty [user_name]. *)
Lemma create_booking_returns_201_witness :
  let booking :=
    booking_of sample_env (VStr "event-123") (VStr "") (VStr "john@example.com") in
  let text :=
    render (VDict (notification_of sample_env (VStr "event-123") (VStr "")
                                   (VStr "john@example.com"))) in
  exists w',
    @Booking.lambda_handler sample_runtime sample_env
       (sample_post sample_full_body) empty_world =
      (w', inr (VDict
         [("statusCode", VInt 201);
          ("headers", json_cors_headers);
          ("body", VStr (render (VDict
             [("message", VStr "Booking created successfully");
              ("booking", VDict booking)])))]))
    /\ table_items w' = [booking]
    /\ queue_msgs w' = [text]
    /\ aws_calls w' = [PutItem booking; SendMessage "https://sqs.local/bookings" text].
Proof.
  exact (@create_booking_returns_201 sample_runtime sample_env
           (sample_post sample_full_body) empty_world
           (render sample_full_body)
           [("event_id", VStr "event-123"); ("user_name", VStr "");
            ("user_email", VStr "john@example.com")]
           (VStr "event-123") (VStr "") (VStr "john@example.com")
           eq_refl eq_refl eq_refl eq_refl eq_refl eq_refl eq_refl eq_refl).
Defined.

(** The body lacks [user_email]: the error names it. *)
Lemma missing_field_yields_400_witness :
  exists field,
    field = "user_email"
    /\ @Booking.create_booking sample_runtime sample_env
         (sample_post sample_body_without_email) empty_world =
       (empty_world, inr (VDict
          [("statusCode", VInt 400);
           ("headers", json_cors_headers);
           ("body", VStr (render (VDict
              [("error", VStr ("Missing required field: " ++ field))])))])).
Proof.
  destruct (@missing_field_yields_400 sample_runtime sample_env
              (sample_post sample_body_without_email) empty_world
              (render sample_body_without_email)
              [("event_id", VStr "event-123"); ("user_name", VStr "John Doe")]
              eq_refl eq_refl eq_refl) as (field & Hfirst & Hrun).
  exists field. split; [|exact Hrun].
  simpl in Hfirst. injection Hfirst as Hfirst. symmetry. exact Hfirst.
Defined.

(** A body that is not JSON, and an event with no body at all. *)
Lemma invalid_body_yields_400_witness :
  @Booking.create_booking sample_runtime sample_env
     [("httpMethod", VStr "POST"); ("body", VStr "not json")] empty_world =
    (empty_world, inr (VDict
       [("statusCode", VInt 400);
        ("headers", json_cors_headers);
        ("body", VStr (render (VDict [("error", VStr "Invalid request body")])))]))
  /\ @Booking.create_booking sample_runtime sample_env
       [("httpMethod", VStr "POST")] empty_world =
    (empty_world, inr (VDict
       [("statusCode", VInt 400);
        ("headers", json_cors_headers);
        ("body", VStr (render (VDict [("error", VStr "Invalid request body")])))])).
Proof.
  split.
  - apply (@invalid_body_yields_400 sample_runtime sample_env
             [("httpMethod", VStr "POST"); ("body", VStr "not json")] empty_world).
    right. exists "not json", "Expecting value: line 1 column 1 (char 0)".
    split; reflexivity.
  - apply (@invalid_body_yields_400 sample_runtime sample_env
             [("httpMethod", VStr "POST")] empty_world).
    left. reflexivity.
Defined.

(** The queue is down: the booking stays, the answer is 500. *)
Lemma publish_failure_keeps_booking_witness :
  let booking :=
    booking_of sample_env_queue_down (VStr "event-123") (VStr "")
               (VStr "john@example.com") in
  exists w',
    @Booking.lambda_handler sample_runtime sample_env_queue_down
       (sample_post sample_full_body) empty_world =
      (w', inr (VDict
         [("statusCode", VInt 500);
          ("headers", json_cors_headers);
          ("body", VStr (render (VDict
             [("error", VStr "Internal server error");
              ("message", VStr "queue unavailable")])))]))
    /\ table_items w' = [booking]
    /\ In booking (table_items w')
    /\ queue_msgs w' = [].
Proof.
  exact (@publish_failure_keeps_booking sample_runtime sample_env_queue_down
           (sample_post sample_full_body) empty_world
           (render sample_full_body)
           [("event_id", VStr "event-123"); ("user_name", VStr "");
            ("user_email", VStr "john@example.com")]
           (VStr "event-123") (VStr "") (VStr "john@example.com")
           (ClientError "queue unavailable")
           eq_refl eq_refl eq_refl eq_refl eq_refl eq_refl eq_refl eq_refl).
Defined.

(** The same request twice, with identifiers [0001] and [0002]. *)
Lemma create_not_idempotent_witness :
  exists w1 w2 b1 b2,
    @Booking.create_booking sample_runtime sample_env
       (sample_post sample_full_body) empty_world =
      (w1, inr (VDict
         [("statusCode", VInt 201);
          ("headers", json_cors_headers);
          ("body", VStr (render (VDict
             [("message", VStr "Booking created successfully");
              ("booking", VDict b1)])))]))
    /\ @Booking.create_booking sample_runtime sample_env_2
         (sample_post sample_full_body) w1 =
      (w2, inr (VDict
         [("statusCode", VInt 201);
          ("headers", json_cors_headers);
          ("body", VStr (render (VDict
             [("message", VStr "Booking created successfully");
              ("booking", VDict b2)])))]))
    /\ dict_get b1 "booking_id" = Some (VStr "booking-0001")
    /\ dict_get b2 "booking_id" = Some (VStr "booking-0002")
    /\ dict_get b1 "booking_id" <> dict_get b2 "booking_id"
    /\ In b1 (table_items w2)
    /\ In b2 (table_items w2).
Proof.
  apply (@create_not_idempotent sample_runtime sample_env sample_env_2
           (sample_post sample_full_body) empty_world
           (render sample_full_body)
           [("event_id", VStr "event-123"); ("user_name", VStr "");
            ("user_email", VStr "john@example.com")]
           (VStr "event-123") (VStr "") (VStr "john@example.com")
           eq_refl eq_refl eq_refl eq_refl eq_refl eq_refl eq_refl eq_refl eq_refl).
  simpl. discriminate.
Defined.

(** Two bookings of [event-123] and one of [event-456] in the table:
    the filter returns the two, no filter returns the three. *)
Lemma get_bookings_filters_or_lists_all_witness :
  (exists w' bookings,
     @Booking.get_bookings sample_runtime sample_env
        (sample_get (VDict [("event_id", VStr "event-123")])) sample_table =
       (w', inr (VDict
          [("statusCode", VInt 200);
           ("headers", json_cors_headers);
           ("body", VStr (render (VDict
              [("message", VStr "Found 2 booking(s) for event event-123");
               ("bookings", VList (map VDict bookings))])))]))
     /\ bookings = [sample_booking "event-123" "booking-a";
                    sample_booking "event-123" "booking-c"])
  /\ (exists w',
        @Booking.get_bookings sample_runtime sample_env
           (sample_get VNone) sample_table =
          (w', inr (VDict
             [("statusCode", VInt 200);
              ("headers", json_cors_headers);
              ("body", VStr (render (VDict
                 [("message", VStr "Found 3 total booking(s)");
                  ("bookings", VList (map VDict (table_items sample_table)))])))]))).
Proof.
  split.
  - destruct (proj1 (@get_bookings_filters_or_lists_all sample_runtime sample_env
                       (sample_get (VDict [("event_id", VStr "event-123")]))
                       sample_table)
                [("event_id", VStr "event-123")] "event-123"
                eq_refl eq_refl ltac:(discriminate) eq_refl)
      as (w' & bookings & Hrun & Hitems & _).
    exists w', bookings. subst bookings. split; [exact Hrun|reflexivity].
  - destruct (proj2 (@get_bookings_filters_or_lists_all sample_runtime sample_env
                       (sample_get VNone) sample_table)
                (or_intror (or_introl eq_refl)) eq_refl)
      as (w' & Hrun & _).
    exists w'. exact Hrun.
Defined.

(** [?event_id=] with nothing after the sign. *)
Lemma empty_event_id_is_full_scan_witness :
  @Booking.get_bookings sample_runtime sample_env
     (sample_get (VDict [("event_id", VStr "")])) sample_table =
  @Booking.get_bookings sample_runtime sample_env (sample_get VNone) sample_table
  /\ aws_calls (fst (@Booking.get_bookings sample_runtime sample_env
                       (sample_get (VDict [("event_id", VStr "")])) sample_table))
     = [Scan].
Proof.
  destruct (@empty_event_id_is_full_scan sample_runtime sample_env
              (sample_get (VDict [("event_id", VStr "")])) sample_table
              [("event_id", VStr "")] eq_refl eq_refl)
    as (Hsame & Hcalls & _).
  split; [|exact Hcalls].
  apply Hsame. right. left. reflexivity.
Defined.


(** A POST whose [body] is [None] is answered 500, not 400. *)
Example null_body_is_500 :
  snd (@Booking.lambda_handler sample_runtime sample_env
         [("httpMethod", VStr "POST"); ("body", VNone)] empty_world) =
    inr (VDict
      [("statusCode", VInt 500);
       ("headers", json_cors_headers);
       ("body", VStr (render (VDict
          [("error", VStr "Internal server error");
           ("message",
            VStr "the JSON object must be str, bytes or bytearray, not NoneType")])))]).
Proof. reflexivity. Qed.

(** An unsupported method is answered 405. *)
Example delete_is_405 :
  snd (@Booking.lambda_handler sample_runtime sample_env
         [("httpMethod", VStr "DELETE")] empty_world) =
    inr (VDict
      [("statusCode", VInt 405);
       ("headers", json_cors_headers);
       ("body", VStr (render (VDict [("error", VStr "Method not allowed")])))]).
Proof. reflexivity. Qed.

(** A notification without [action] and [timestamp] takes the defaults. *)
Example notification_defaults :
  snd (@Notification.process_notification sample_runtime "2024-01-02T00:00:00"
         (VDict [("booking_id", VStr "booking-0001");
                 ("event_id", VStr "event-123");
                 ("user_name", VStr "John Doe")])
         empty_world) =
    inr (VDict
      [("type", VStr "email_notification");
       ("action", VStr "unknown");
       ("recipient", VNone);
       ("subject", VStr "Event Booking Confirmation - event-123");
       ("message", VStr "Hello John Doe, your booking booking-0001 has been confirmed!");
       ("timestamp", VStr "2024-01-02T00:00:00")]).
Proof. reflexivity. Qed.

(** The hypothesis of C9 is needed: when the two draws of the identifier
    coincide, the second write replaces the first record. *)
Example same_identifier_overwrites :
  table_items
    (fst (@Booking.create_booking sample_runtime sample_env
            (sample_post sample_full_body)
            (fst (@Booking.create_booking sample_runtime sample_env
                    (sample_post sample_full_body) empty_world)))) =
    [booking_of sample_env (VStr "event-123") (VStr "") (VStr "john@example.com")].
Proof. reflexivity. Qed.

(** A body that is valid JSON but not an object: a list naming the three
    fields passes the membership tests and fails at the first subscript;
    nothing is written. *)
Example list_body_is_500 :
  @Booking.lambda_handler (Build_PyRuntime
       (fun _ => inr (VList [VStr "event_id"; VStr "user_name"; VStr "user_email"]))
       render render render render)
    sample_env [("httpMethod", VStr "POST"); ("body", VStr "[...]")] empty_world =
    (mkWorld [] [] []
       ["Received event: " ++ render (VDict [("httpMethod", VStr "POST");
                                             ("body", VStr "[...]")]);
        "Error: list indices must be integers or slices, not str"],
     inr (VDict
       [("statusCode", VInt 500);
        ("headers", json_cors_headers);
        ("body", VStr (render (VDict
           [("error", VStr "Internal server error");
            ("message",
             VStr "list indices must be integers or slices, not str")])))])).
Proof. reflexivity. Qed.

(** * Further properties of the Booking Service *)

Section BookingFurther.
Context `{PyRuntime}.

Lemma py_eq_str_false (v : value) (s : string) :
  v <> VStr s -> py_eq_str v s = false.
Proof.
  intros Hne. destruct v; try reflexivity.
  simpl. apply String.eqb_neq. intros ->. now apply Hne.
Qed.

(** [lambda_handler] prints the event, dispatches on the method and
    turns any exception of the operation into a 500. *)
Lemma lambda_handler_runs (e : Booking.env) (event : dict) (w : world) :
  Booking.lambda_handler e event w =
    let w1 := with_stdout w [received_line event] in
    let http_method := dict_get_default event "httpMethod" (VStr "") in
    let outcome :=
      if py_eq_str http_method "POST" then Booking.create_booking e event w1
      else if py_eq_str http_method "GET" then Booking.get_bookings e event w1
      else (w1, inr method_not_allowed) in
    match outcome with
    | (w2, inr response) => (w2, inr response)
    | (w2, inl ex) =>
        (with_stdout w2 [("Error: " ++ str_exn ex)%string], inr (internal_error ex))
    end.
Proof.
  unfold Booking.lambda_handler.
  unfold bind at 1, print at 1, try_except. cbv beta iota zeta.
  fold (with_stdout w [received_line event]).
  destruct (py_eq_str _ "POST").
  - destruct (Booking.create_booking e event _) as [w2 [ex|response]]; reflexivity.
  - destruct (py_eq_str _ "GET").
    + destruct (Booking.get_bookings e event _) as [w2 [ex|response]]; reflexivity.
    + reflexivity.
Qed.

(** X1. Any method other than the exact strings [POST] and [GET] (a
    missing [httpMethod], a lower-case [post], a value that is not a
    string) is answered 405; only the received-event line is printed, and
    the table, the queue and the call log are untouched. *)
Theorem unsupported_method_is_405 (e : Booking.env) (event : dict) (w : world) :
  dict_get_default event "httpMethod" (VStr "") <> VStr "POST" ->
  dict_get_default event "httpMethod" (VStr "") <> VStr "GET" ->
  Booking.lambda_handler e event w =
    (mkWorld (table_items w) (queue_msgs w) (aws_calls w)
             (stdout w ++ [received_line event]),
     inr method_not_allowed).
Proof.
  intros Hpost Hget. rewrite lambda_handler_runs. cbv zeta.
  rewrite (py_eq_str_false _ _ Hpost), (py_eq_str_false _ _ Hget).
  reflexivity.
Qed.

(** X3. A POST whose [body] is present but is not a string ([None], a
    number, a nested object) is answered 500 with the [TypeError] of
    [json.loads], not 400: the [except] clause of [create_booking] names
    [JSONDecodeError] and [KeyError] only.  No AWS call is made. *)
Theorem non_string_body_is_500 (e : Booking.env) (event : dict) (w : world)
    (v : value) :
  dict_get event "httpMethod" = Some (VStr "POST") ->
  dict_get event "body" = Some v ->
  (forall s, v <> VStr s) ->
  let msg := "the JSON object must be str, bytes or bytearray, not " ++ type_name v in
  Booking.lambda_handler e event w =
    (mkWorld (table_items w) (queue_msgs w) (aws_calls w)
             (stdout w ++ [received_line event; ("Error: " ++ msg)%string]),
     inr (internal_error (TypeError msg))).
Proof.
  intros Hmethod Hbody Hnot msg. rewrite lambda_handler_runs. cbv zeta.
  unfold dict_get_default. rewrite Hmethod. simpl py_eq_str. cbv iota.
  rewrite (body_not_a_string_raises e event _ v Hbody Hnot).
  unfold with_stdout. simpl. now rewrite <- app_assoc.
Qed.

(** What the validation loop returns: a [TypeError] of the membership
    test, the 400 answer for a field that is not in the body, or nothing
    when every field is in it.  It never changes the world. *)
Lemma validate_required_result (fields : list string) (body : value) (w : world) :
  exists r,
    Booking.validate_required fields body w = (w, r)
    /\ ((exists msg, r = inl (TypeError msg))
        \/ (exists field, In field fields
                          /\ py_contains field body = inr false
                          /\ r = inr (Some (bad_request
                                 ("Missing required field: " ++ field))))
        \/ (r = inr None
            /\ forall field, In field fields -> py_contains field body = inr true)).
Proof.
  induction fields as [|field rest IH]; simpl.
  - eexists. split; [reflexivity|]. right. right. split; [reflexivity|].
    intros field [].
  - unfold bind, lift. destruct (py_contains field body) as [ex|present] eqn:Hc; simpl.
    + eexists. split; [reflexivity|]. left.
      destruct body; simpl in Hc; try discriminate; inversion Hc; eauto.
    + destruct present; simpl.
      * destruct IH as (r & Hrun & Hr). exists r. split; [exact Hrun|].
        destruct Hr as [Hr | [(f & Hin & Hf & Hr) | (Hr & Hall)]].
        -- now left.
        -- right. left. exists f. auto.
        -- right. right. split; [exact Hr|].
           intros f [<- | Hin]; auto.
      * eexists. split; [reflexivity|]. right. left. exists field. auto.
Qed.

Lemma create_booking_non_object (e : Booking.env) (event : dict) (w : world)
    (s : string) (parsed : value) :
  dict_get event "body" = Some (VStr s) ->
  json_loads s = inr parsed ->
  (forall kvs, parsed <> VDict kvs) ->
  exists r,
    Booking.create_booking e event w = (w, r)
    /\ ((exists msg, r = inl (TypeError msg))
        \/ (exists field, In field ["event_id"; "user_name"; "user_email"]
                          /\ r = inr (bad_request ("Missing required field: " ++ field)))).
Proof.
  intros Hbody Hparse Hnot.
  unfold Booking.create_booking.
  unfold bind at 1, try_except at 1, bind at 1, lift at 1, py_getitem at 1.
  rewrite Hbody. unfold ret at 1. cbv beta iota.
  unfold bind at 1, lift at 1, py_json_loads. rewrite Hparse.
  unfold ret at 1, ret at 1. cbv beta iota.
  unfold bind at 1.
  destruct (validate_required_result ["event_id"; "user_name"; "user_email"] parsed w)
    as (r & -> & Hr).
  destruct Hr as [(msg & ->) | [(field & Hin & _ & ->) | (-> & _)]].
  - eexists. split; [reflexivity|]. left. eauto.
  - eexists. split; [reflexivity|]. right. eauto.
  - cbv beta iota. unfold bind at 1, lift at 1.
    destruct parsed; simpl; try (eexists; split; [reflexivity|]; left; eauto).
    now destruct (Hnot d).
Qed.

(** X4. A body that is valid JSON but not an object (an array, a string,
    a number, [null]) never creates a booking: [create_booking] either
    answers 400 for a field it does not find or raises [TypeError], and
    in both cases leaves the world exactly as it was. *)
Theorem non_object_body_creates_nothing (e : Booking.env) (event : dict) (w : world)
    (s : string) (parsed : value) :
  dict_get event "body" = Some (VStr s) ->
  json_loads s = inr parsed ->
  (forall kvs, parsed <> VDict kvs) ->
  exists r,
    Booking.create_booking e event w = (w, r)
    /\ ((exists msg, r = inl (TypeError msg))
        \/ (exists field, In field ["event_id"; "user_name"; "user_email"]
                          /\ r = inr (bad_request ("Missing required field: " ++ field)))).
Proof. exact (create_booking_non_object e event w s parsed). Qed.

Lemma py_eq_str_true (v : value) (s : string) :
  py_eq_str v s = true -> v = VStr s.
Proof.
  destruct v; simpl; try discriminate.
  intros Heq. apply String.eqb_eq in Heq. now subst.
Qed.

Lemma py_eq_str_neq (v : value) (s : string) :
  py_eq_str v s = false -> v <> VStr s.
Proof.
  intros Hf ->. simpl in Hf. now rewrite String.eqb_refl in Hf.
Qed.

(** A valid request whose write raises: the call is logged, the
    exception leaves [create_booking], and nothing else has happened. *)
Lemma create_booking_write_fails (e : Booking.env) (event : dict) (w : world)
    (eid un ue : value) (ex : exn) :
  valid_request event eid un ue ->
  Booking.put_item_fault e = Some ex ->
  Booking.create_booking e event w =
    (mkWorld (table_items w) (queue_msgs w)
             (aws_calls w ++ [PutItem (booking_of e eid un ue)]) (stdout w),
     inl ex).
Proof.
  intros (s & kvs & Hbody & Hparse & Heid & Hun & Hue) Hput.
  unfold Booking.create_booking, Booking.validate_required, Booking.put_item,
    py_getitem, py_json_loads, py_contains, dict_mem.
  run_monad.
  rewrite Hbody. simpl. rewrite Hparse. simpl. rewrite Heid, Hun, Hue. simpl.
  rewrite Hput. reflexivity.
Qed.

(** Either the request is valid, or [create_booking] stops before any
    AWS call, with a 400 or an exception, in an unchanged world. *)
Lemma create_booking_rejects_or_valid (e : Booking.env) (event : dict) (w : world) :
  (exists eid un ue, valid_request event eid un ue)
  \/ (exists r,
        Booking.create_booking e event w = (w, r)
        /\ ((exists ex, r = inl ex) \/ (exists msg, r = inr (bad_request msg)))).
Proof.
  destruct (dict_get event "body") as [v|] eqn:Hbody.
  - destruct v as [| | |s| |];
      try (right; eexists; split;
           [apply (body_not_a_string_raises e event w _ Hbody); discriminate
           |left; eauto]).
    destruct (json_loads s) as [ex|parsed] eqn:Hparse.
    + right.
      destruct ex;
        (eexists; split;
         [unfold Booking.create_booking, py_getitem, py_json_loads; run_monad;
          rewrite Hbody; simpl; rewrite Hparse; reflexivity|]);
        first [left; eexists; reflexivity | right; eexists; reflexivity].
    + destruct parsed as [| | | | |kvs];
        try (right;
             destruct (create_booking_non_object e event w s _ Hbody Hparse)
               as (r & Hrun & Hr); [discriminate|];
             exists r; split; [exact Hrun|];
             destruct Hr as [(msg & ->) | (field & _ & ->)]; [left|right]; eauto).
      destruct (dict_get kvs "event_id") as [eid|] eqn:Heid;
        [destruct (dict_get kvs "user_name") as [un|] eqn:Hun;
         [destruct (dict_get kvs "user_email") as [ue|] eqn:Hue|]|].
      * left. exists eid, un, ue, s, kvs. auto.
      * right. eexists. split; [|right; eauto].
        unfold Booking.create_booking, Booking.validate_required,
          py_getitem, py_json_loads, py_contains, dict_mem. run_monad.
        rewrite Hbody. simpl. rewrite Hparse. simpl. rewrite Heid, Hun, Hue.
        reflexivity.
      * right. eexists. split; [|right; eauto].
        unfold Booking.create_booking, Booking.validate_required,
          py_getitem, py_json_loads, py_contains, dict_mem. run_monad.
        rewrite Hbody. simpl. rewrite Hparse. simpl. rewrite Heid, Hun.
        reflexivity.
      * right. eexists. split; [|right; eauto].
        unfold Booking.create_booking, Booking.validate_required,
          py_getitem, py_json_loads, py_contains, dict_mem. run_monad.
        rewrite Hbody. simpl. rewrite Hparse. simpl. rewrite Heid.
        reflexivity.
  - right. eexists. split; [|right; eauto].
    unfold Booking.create_booking, py_getitem. run_monad.
    rewrite Hbody. reflexivity.
Qed.

(** [get_bookings] never writes and never prints: it raises
    [AttributeError] before any call, or issues one read and answers 200
    unless the read raises. *)
Lemma get_bookings_outcome (e : Booking.env) (event : dict) (w : world) :
  exists w' r,
    Booking.get_bookings e event w = (w', r)
    /\ stdout w' = stdout w
    /\ ((quiet w w' /\ exists msg, r = inl (AttributeError msg))
        \/ (one_read w w'
            /\ ((exists ex, r = inl ex)
                \/ (exists message bookings, r = inr (listing message bookings))))).
Proof.
  destruct (requested_event_id event) as [ex|v] eqn:Hreq.
  - exists w, (inl ex). split; [|split; [reflexivity|left]].
    + unfold requested_event_id in Hreq.
      unfold Booking.get_bookings. rewrite Hreq. reflexivity.
    + split; [repeat split|].
      unfold requested_event_id, py_get in Hreq.
      destruct (if truthy _ then _ else _); inversion Hreq; eauto.
  - destruct (truthy v) eqn:Htruthy.
    + rewrite (get_bookings_query_path e event w v Hreq Htruthy). cbv zeta.
      destruct (Booking.query_fault e); do 2 eexists;
        (split; [reflexivity|]); (split; [reflexivity|]); right;
        (split; [repeat split; exists (Query v); split; [right; eauto|reflexivity]|]).
      * left; eauto.
      * right. do 2 eexists. reflexivity.
    + rewrite (get_bookings_scan_path e event w v Hreq Htruthy). cbv zeta.
      destruct (Booking.scan_fault e); do 2 eexists;
        (split; [reflexivity|]); (split; [reflexivity|]); right;
        (split; [repeat split; exists Scan; split; [now left|reflexivity]|]).
      * left; eauto.
      * right. do 2 eexists. reflexivity.
Qed.

(** Every way an invocation of the Booking Service can go. *)
Lemma lambda_handler_cases (e : Booking.env) (event : dict) (w : world) :
  let http_method := dict_get_default event "httpMethod" (VStr "") in
  exists w' response,
    Booking.lambda_handler e event w = (w', inr response)
    /\ ((quiet w w'
         /\ ((http_method <> VStr "POST" /\ http_method <> VStr "GET"
              /\ response = method_not_allowed)
             \/ (http_method = VStr "POST" /\ exists msg, response = bad_request msg)
             \/ ((http_method = VStr "POST" \/ http_method = VStr "GET")
                 /\ exists ex, response = internal_error ex)))
        \/ (http_method = VStr "GET" /\ one_read w w'
            /\ ((exists ex, response = internal_error ex)
                \/ (exists message bookings, response = listing message bookings)))
        \/ (http_method = VStr "POST"
            /\ exists eid un ue,
                 valid_request event eid un ue
                 /\ ((exists ex,
                        Booking.put_item_fault e = Some ex
                        /\ response = internal_error ex
                        /\ table_items w' = table_items w
                        /\ queue_msgs w' = queue_msgs w
                        /\ aws_calls w' =
                             (aws_calls w ++ [PutItem (booking_of e eid un ue)])%list)
                     \/ (Booking.put_item_fault e = None
                         /\ table_items w' =
                              table_put (booking_of e eid un ue) (table_items w)
                         /\ aws_calls w' =
                              (aws_calls w
                               ++ [PutItem (booking_of e eid un ue);
                                   SendMessage (Booking.SQS_QUEUE_URL e)
                                     (json_dumps (VDict (notification_of e eid un ue)))])%list
                         /\ ((exists ex,
                                Booking.send_message_fault e = Some ex
                                /\ response = internal_error ex
                                /\ queue_msgs w' = queue_msgs w)
                             \/ (Booking.send_message_fault e = None
                                 /\ response = created (booking_of e eid un ue)
                                 /\ queue_msgs w' =
                                      (queue_msgs w
                                       ++ [json_dumps
                                             (VDict (notification_of e eid un ue))])%list)))))).
Proof.
  intros http_method. rewrite lambda_handler_runs. cbv zeta. fold http_method.
  set (w1 := with_stdout w [received_line event]).
  destruct (py_eq_str http_method "POST") eqn:Hpost.
  - apply py_eq_str_true in Hpost.
    destruct (create_booking_rejects_or_valid e event w1)
      as [(eid & un & ue & Hvalid) | (r & Hrun & Hr)].
    + destruct (Booking.put_item_fault e) as [ex|] eqn:Hput.
      * rewrite (create_booking_write_fails e event w1 eid un ue ex Hvalid Hput).
        do 2 eexists. split; [reflexivity|].
        right. right. split; [exact Hpost|]. exists eid, un, ue.
        split; [exact Hvalid|]. left. exists ex. simpl. auto.
      * destruct Hvalid as (s & kvs & Hbody & Hparse & Heid & Hun & Hue).
        rewrite (create_booking_valid e event w1 s kvs eid un ue
                   Hbody Hparse Heid Hun Hue Hput).
        cbv zeta.
        destruct (Booking.send_message_fault e) as [ex|] eqn:Hsend;
          do 2 eexists; (split; [reflexivity|]);
          right; right; (split; [exact Hpost|]); exists eid, un, ue;
          (split; [exists s, kvs; auto|]); right;
          (split; [reflexivity|]); simpl;
          (split; [reflexivity|]);
          (split; [now rewrite <- app_assoc|]).
        -- left. exists ex. auto.
        -- right. auto.
    + rewrite Hrun.
      destruct Hr as [(ex & ->) | (msg & ->)];
        do 2 eexists; (split; [reflexivity|]); left;
        (split; [repeat split|]).
      * right. right. split; [now left|eauto].
      * right. left. split; [exact Hpost|eauto].
  - apply py_eq_str_neq in Hpost.
    destruct (py_eq_str http_method "GET") eqn:Hget.
    + apply py_eq_str_true in Hget.
      destruct (get_bookings_outcome e event w1)
        as (w2 & r & -> & Hout & [(Hquiet & msg & ->) | (Hread & Hr)]).
      * do 2 eexists. split; [reflexivity|]. left.
        split; [exact Hquiet|]. right. right. split; [now right|eauto].
      * destruct Hr as [(ex & ->) | (message & bookings & ->)];
          do 2 eexists; (split; [reflexivity|]); right; left;
          (split; [exact Hget|]); (split; [exact Hread|]).
        -- left. eauto.
        -- right. eauto.
    + apply py_eq_str_neq in Hget.
      do 2 eexists. split; [reflexivity|]. left.
      split; [repeat split|]. left. auto.
Qed.

(** X2. When the write of a valid creation request raises [ex], the
    answer is 500 with [str(ex)], the table and the queue are as before,
    and the call log shows the [PutItem] alone: no notification is
    published for a booking that was not stored. *)
Theorem write_failure_publishes_nothing (e : Booking.env) (event : dict) (w : world)
    (eid un ue : value) (ex : exn) :
  dict_get event "httpMethod" = Some (VStr "POST") ->
  valid_request event eid un ue ->
  Booking.put_item_fault e = Some ex ->
  Booking.lambda_handler e event w =
    (mkWorld (table_items w) (queue_msgs w)
             (aws_calls w ++ [PutItem (booking_of e eid un ue)])
             (stdout w ++ [received_line event; ("Error: " ++ str_exn ex)%string]),
     inr (internal_error ex)).
Proof.
  intros Hmethod Hvalid Hput. rewrite lambda_handler_runs. cbv zeta.
  unfold dict_get_default. rewrite Hmethod. simpl py_eq_str. cbv iota.
  rewrite (create_booking_write_fails e event _ eid un ue ex Hvalid Hput).
  unfold with_stdout. simpl. now rewrite <- app_assoc.
Qed.

(** X5. A 201 is never returned without both effects: whenever
    [lambda_handler] answers 201, the request was a valid creation
    request, the booking of the answer is in the table, the queue has
    received its notification, and the call log grew by that [PutItem]
    and that [SendMessage]. *)
Theorem success_means_stored_and_published (e : Booking.env) (event : dict)
    (w w' : world) (response : value) :
  Booking.lambda_handler e event w = (w', inr response) ->
  status_of response = Some (VInt 201) ->
  exists eid un ue,
    valid_request event eid un ue
    /\ response = created (booking_of e eid un ue)
    /\ In (booking_of e eid un ue) (table_items w')
    /\ queue_msgs w' =
         (queue_msgs w ++ [json_dumps (VDict (notification_of e eid un ue))])%list
    /\ aws_calls w' =
         (aws_calls w
          ++ [PutItem (booking_of e eid un ue);
              SendMessage (Booking.SQS_QUEUE_URL e)
                (json_dumps (VDict (notification_of e eid un ue)))])%list.
Proof.
  intros Hrun Hstatus.
  destruct (lambda_handler_cases e event w) as (w2 & r & Hrun2 & Hcases).
  rewrite Hrun in Hrun2. inversion Hrun2; subst w2 r. clear Hrun2.
  destruct Hcases as [(_ & Hq) | [(_ & _ & Hr) | (_ & eid & un & ue & Hvalid & Hw)]].
  - destruct Hq as [(_ & _ & ->) | [(_ & msg & ->) | (_ & ex & ->)]]; discriminate.
  - destruct Hr as [(ex & ->) | (message & bookings & ->)]; discriminate.
  - destruct Hw as [(ex & _ & -> & _) | (_ & Htable & Hcalls & Hsend)];
      [discriminate|].
    destruct Hsend as [(ex & _ & -> & _) | (_ & -> & Hqueue)]; [discriminate|].
    exists eid, un, ue. repeat split; auto.
    rewrite Htable. apply table_put_In.
Qed.

(** X6. A 400 or a 405 means no AWS call was made: the table, the queue
    and the call log are as they were. *)
Theorem rejection_makes_no_call (e : Booking.env) (event : dict)
    (w w' : world) (response : value) :
  Booking.lambda_handler e event w = (w', inr response) ->
  status_of response = Some (VInt 400) \/ status_of response = Some (VInt 405) ->
  table_items w' = table_items w
  /\ queue_msgs w' = queue_msgs w
  /\ aws_calls w' = aws_calls w.
Proof.
  intros Hrun Hstatus.
  destruct (lambda_handler_cases e event w) as (w2 & r & Hrun2 & Hcases).
  rewrite Hrun in Hrun2. inversion Hrun2; subst w2 r. clear Hrun2.
  destruct Hcases as [(Hquiet & _) | [(_ & _ & Hr) | (_ & eid & un & ue & _ & Hw)]].
  - exact Hquiet.
  - destruct Hr as [(ex & ->) | (message & bookings & ->)];
      destruct Hstatus; discriminate.
  - destruct Hw as [(ex & _ & -> & _) | (_ & _ & _ & Hsend)];
      [destruct Hstatus; discriminate|].
    destruct Hsend as [(ex & _ & -> & _) | (_ & -> & _)];
      destruct Hstatus; discriminate.
Qed.

(** X7. [get_bookings] is read-only on every event, whether it answers
    or raises: the table, the queue and standard output are unchanged,
    and the call log is either unchanged or longer by one [Query] or one
    [Scan]. *)
Theorem get_bookings_is_read_only (e : Booking.env) (event : dict) (w : world) :
  let w' := fst (Booking.get_bookings e event w) in
  table_items w' = table_items w
  /\ queue_msgs w' = queue_msgs w
  /\ stdout w' = stdout w
  /\ (aws_calls w' = aws_calls w
      \/ aws_calls w' = (aws_calls w ++ [Scan])%list
      \/ exists v, aws_calls w' = (aws_calls w ++ [Query v])%list).
Proof.
  destruct (get_bookings_outcome e event w)
    as (w2 & r & Hrun & Hout & [((Ht & Hq & Hc) & _) | ((Ht & Hq & c & Hc & Hcalls) & _)]);
    rewrite Hrun; simpl; repeat split; auto.
  destruct Hc as [-> | (v & ->)]; eauto.
Qed.

Lemma table_put_length (item : dict) (items : list dict) :
  length items <= length (table_put item items) <= S (length items).
Proof.
  induction items as [|old rest IH]; simpl; [lia|].
  destruct (same_key old item); simpl; lia.
Qed.

Lemma same_key_needs_booking_id (item : dict) (e : Booking.env) (eid un ue : value) :
  dict_get item "booking_id" <> Some (VStr ("booking-" ++ Booking.uuid4 e)) ->
  same_key item (booking_of e eid un ue) = false.
Proof.
  intros Hne. unfold same_key.
  replace (dict_get (booking_of e eid un ue) "booking_id")
    with (Some (VStr ("booking-" ++ Booking.uuid4 e))) by reflexivity.
  destruct (dict_get item "booking_id") as [v|]; [|apply andb_false_r].
  destruct v; try apply andb_false_r.
  cbn [opt_value_eqb value_eqb].
  destruct (String.eqb s ("booking-" ++ Booking.uuid4 e)) eqn:Heq;
    [|apply andb_false_r].
  apply String.eqb_eq in Heq. subst s. now destruct Hne.
Qed.

(** X8. No invocation of the Booking Service removes a booking: whatever
    the event, the faults and the method, an item of the table is still
    there afterwards unless its [booking_id] is the identifier generated
    in this invocation, and the table grows by one item at most. *)
Theorem bookings_are_never_removed (e : Booking.env) (event : dict) (w : world) :
  let w' := fst (Booking.lambda_handler e event w) in
  (forall item,
     In item (table_items w) ->
     dict_get item "booking_id" <> Some (VStr ("booking-" ++ Booking.uuid4 e)) ->
     In item (table_items w'))
  /\ length (table_items w) <= length (table_items w') <= S (length (table_items w)).
Proof.
  destruct (lambda_handler_cases e event w) as (w2 & r & Hrun & Hcases).
  rewrite Hrun. cbn [fst].
  assert (Hsame : table_items w2 = table_items w ->
    (forall item, In item (table_items w) ->
       dict_get item "booking_id" <> Some (VStr ("booking-" ++ Booking.uuid4 e)) ->
       In item (table_items w2))
    /\ length (table_items w) <= length (table_items w2) <= S (length (table_items w))).
  { intros ->. split; [auto|lia]. }
  destruct Hcases as [((Ht & _) & _) | [(_ & (Ht & _) & _) | (_ & eid & un & ue & _ & Hw)]];
    try (apply Hsame; exact Ht).
  destruct Hw as [(ex & _ & _ & Ht & _) | (_ & Ht & _)]; [apply Hsame; exact Ht|].
  rewrite Ht. split.
  - intros item Hin Hne. apply table_put_keeps; [exact Hin|].
    now apply same_key_needs_booking_id.
  - apply table_put_length.
Qed.

(** X13. The status follows the method: a POST is answered 201, 400 or
    500, a GET 200 or 500, anything else 405. *)
Theorem status_follows_method (e : Booking.env) (event : dict) (w : world) :
  let http_method := dict_get_default event "httpMethod" (VStr "") in
  exists w' response status,
    Booking.lambda_handler e event w = (w', inr response)
    /\ status_of response = Some (VInt status)
    /\ (http_method = VStr "POST" -> In status [201; 400; 500]%Z)
    /\ (http_method = VStr "GET" -> In status [200; 500]%Z)
    /\ (http_method <> VStr "POST" -> http_method <> VStr "GET" -> status = 405%Z).
Proof.
  intros http_method.
  destruct (lambda_handler_cases e event w) as (w' & r & Hrun & Hcases).
  fold http_method in Hcases.
  exists w', r.
  assert (Hdone : forall status,
            status_of r = Some (VInt status) ->
            (http_method = VStr "POST" -> In status [201; 400; 500]%Z) ->
            (http_method = VStr "GET" -> In status [200; 500]%Z) ->
            (http_method <> VStr "POST" -> http_method <> VStr "GET" ->
             status = 405%Z) ->
            exists status,
              Booking.lambda_handler e event w = (w', inr r)
              /\ status_of r = Some (VInt status)
              /\ (http_method = VStr "POST" -> In status [201; 400; 500]%Z)
              /\ (http_method = VStr "GET" -> In status [200; 500]%Z)
              /\ (http_method <> VStr "POST" -> http_method <> VStr "GET" ->
                  status = 405%Z)).
  { intros status Hs Hp Hg Ho. exists status. auto. }
  destruct Hcases as [(_ & Hq) | [(Hget & _ & Hr) | (Hpost & eid & un & ue & _ & Hw)]].
  - destruct Hq as [(Hnp & Hng & ->) | [(Hpost & msg & ->) | (Hm & ex & ->)]].
    + apply (Hdone 405%Z); [reflexivity| | |]; intros; try contradiction; reflexivity.
    + apply (Hdone 400%Z); [reflexivity| | |]; intros; simpl;
        try contradiction; try congruence; auto.
    + apply (Hdone 500%Z); [reflexivity| | |]; intros; simpl; auto.
      destruct Hm; contradiction.
  - destruct Hr as [(ex & ->) | (message & bookings & ->)].
    + apply (Hdone 500%Z); [reflexivity| | |]; intros; simpl;
        try contradiction; try congruence; auto.
    + apply (Hdone 200%Z); [reflexivity| | |]; intros; simpl;
        try contradiction; try congruence; auto.
  - destruct Hw as [(ex & _ & -> & _) | (_ & _ & _ & Hsend)].
    + apply (Hdone 500%Z); [reflexivity| | |]; intros; simpl;
        try contradiction; try congruence; auto.
    + destruct Hsend as [(ex & _ & -> & _) | (_ & -> & _)].
      * apply (Hdone 500%Z); [reflexivity| | |]; intros; simpl;
          try contradiction; try congruence; auto.
      * apply (Hdone 201%Z); [reflexivity| | |]; intros; simpl;
          try contradiction; try congruence; auto.
Qed.

(** *** Creating, then listing *)

Lemma table_put_fresh (item : dict) (items : list dict) :
  (forall old, In old items -> same_key old item = false) ->
  table_put item items = (items ++ [item])%list.
Proof.
  induction items as [|old rest IH]; intros Hfresh; simpl; [reflexivity|].
  rewrite (Hfresh old (or_introl eq_refl)).
  f_equal. apply IH. intros x Hin. apply Hfresh. now right.
Qed.

Lemma create_booking_succeeds (e : Booking.env) (event : dict) (w : world)
    (eid un ue : value) :
  valid_request event eid un ue ->
  Booking.put_item_fault e = None ->
  Booking.send_message_fault e = None ->
  exists w1,
    Booking.create_booking e event w = (w1, inr (created (booking_of e eid un ue)))
    /\ table_items w1 = table_put (booking_of e eid un ue) (table_items w)
    /\ queue_msgs w1 =
         (queue_msgs w ++ [json_dumps (VDict (notification_of e eid un ue))])%list.
Proof.
  intros (s & kvs & Hbody & Hparse & Heid & Hun & Hue) Hput Hsend.
  rewrite (create_booking_valid e event w s kvs eid un ue
             Hbody Hparse Heid Hun Hue Hput).
  rewrite Hsend. cbv zeta. eexists. split; [reflexivity|]. split; reflexivity.
Qed.

(** X9. A booking that was created is found by the next listing: after
    a successful creation for the event [id], a listing filtered on [id]
    and an unfiltered listing, run in the world the creation left, both
    answer 200 with a list that contains the booking. *)
Theorem created_booking_is_listed (e e' : Booking.env) (event event' : dict)
    (w : world) (id : string) (un ue : value) :
  valid_request event (VStr id) un ue ->
  Booking.put_item_fault e = None ->
  Booking.send_message_fault e = None ->
  let w1 := fst (Booking.create_booking e event w) in
  let booking := booking_of e (VStr id) un ue in
  (forall qp,
     dict_get event' "queryStringParameters" = Some (VDict qp) ->
     dict_get qp "event_id" = Some (VStr id) ->
     id <> "" ->
     Booking.query_fault e' = None ->
     exists bookings,
       snd (Booking.get_bookings e' event' w1) =
         inr (listing ("Found " ++ str_of_nat (length bookings)
                       ++ " booking(s) for event " ++ id) bookings)
       /\ In booking bookings)
  /\ (event_id_absent event' ->
      Booking.scan_fault e' = None ->
      exists bookings,
        snd (Booking.get_bookings e' event' w1) =
          inr (listing ("Found " ++ str_of_nat (length bookings)
                        ++ " total booking(s)") bookings)
        /\ In booking bookings).
Proof.
  intros Hvalid Hput Hsend w1 booking.
  destruct (create_booking_succeeds e event w (VStr id) un ue Hvalid Hput Hsend)
    as (w1' & Hrun & Htable & _).
  assert (Hw1 : table_items w1 = table_put booking (table_items w)).
  { unfold w1. rewrite Hrun. exact Htable. }
  split.
  - intros qp Hparams Hid Hne Hquery.
    assert (Htruthy : truthy (VStr id) = true).
    { simpl. apply String.eqb_neq in Hne. now rewrite Hne. }
    rewrite (get_bookings_query_path e' event' w1 (VStr id)
               (requested_of_params event' qp _ Hparams Hid) Htruthy).
    rewrite Hquery. cbv zeta. cbn [snd].
    exists (partition (VStr id) (table_items w1)). split; [reflexivity|].
    apply partition_spec. split; [|reflexivity].
    rewrite Hw1. apply table_put_In.
  - intros Habsent Hscan.
    rewrite (get_bookings_scan_path e' event' w1 VNone
               (requested_of_absent event' Habsent) eq_refl).
    rewrite Hscan. cbv zeta. cbn [snd].
    exists (table_items w1). split; [reflexivity|].
    rewrite Hw1. apply table_put_In.
Qed.

(** X10. When no item of the table carries the generated identifier, a
    successful creation adds exactly one item: the table afterwards holds
    the items it held and the new booking, each once, in whatever order,
    and the unfiltered listing that follows returns exactly those and
    reports one booking more. *)
Theorem fresh_booking_adds_one (e e' : Booking.env) (event event' : dict)
    (w : world) (eid un ue : value) :
  valid_request event eid un ue ->
  Booking.put_item_fault e = None ->
  Booking.send_message_fault e = None ->
  (forall item, In item (table_items w) ->
     dict_get item "booking_id" <> Some (VStr ("booking-" ++ Booking.uuid4 e))) ->
  event_id_absent event' ->
  Booking.scan_fault e' = None ->
  let w1 := fst (Booking.create_booking e event w) in
  Permutation (table_items w1) (booking_of e eid un ue :: table_items w)
  /\ exists bookings,
       snd (Booking.get_bookings e' event' w1) =
         inr (listing ("Found " ++ str_of_nat (S (length (table_items w)))
                       ++ " total booking(s)") bookings)
       /\ Permutation bookings (booking_of e eid un ue :: table_items w).
Proof.
  intros Hvalid Hput Hsend Hfresh Habsent Hscan w1.
  destruct (create_booking_succeeds e event w eid un ue Hvalid Hput Hsend)
    as (w1' & Hrun & Htable & _).
  assert (Hw1 : table_items w1 = (table_items w ++ [booking_of e eid un ue])%list).
  { unfold w1. rewrite Hrun. cbn [fst]. rewrite Htable.
    apply table_put_fresh. intros old Hin.
    apply same_key_needs_booking_id. now apply Hfresh. }
  assert (Hperm : Permutation (table_items w1)
                              (booking_of e eid un ue :: table_items w)).
  { rewrite Hw1. apply Permutation_sym, Permutation_cons_append. }
  split; [exact Hperm|].
  rewrite (get_bookings_scan_path e' event' w1 VNone
             (requested_of_absent event' Habsent) eq_refl).
  rewrite Hscan. cbv zeta. cbn [snd].
  exists (table_items w1). split; [|exact Hperm].
  rewrite (Permutation_length Hperm). reflexivity.
Qed.

(** *** Listing: the edges *)

(** X11. Query parameters that are truthy but not a dict (a string, a
    number, a list) have no [get] method: the GET is answered 500 with
    the [AttributeError], before any read of the table. *)
Theorem non_dict_query_parameters_is_500 (e : Booking.env) (event : dict) (w : world)
    (v : value) :
  dict_get event "httpMethod" = Some (VStr "GET") ->
  dict_get event "queryStringParameters" = Some v ->
  truthy v = true ->
  (forall qp, v <> VDict qp) ->
  let msg := "'" ++ type_name v ++ "' object has no attribute 'get'" in
  Booking.lambda_handler e event w =
    (mkWorld (table_items w) (queue_msgs w) (aws_calls w)
             (stdout w ++ [received_line event; ("Error: " ++ msg)%string]),
     inr (internal_error (AttributeError msg))).
Proof.
  intros Hmethod Hparams Htruthy Hnot msg. rewrite lambda_handler_runs. cbv zeta.
  unfold dict_get_default at 1 2. rewrite Hmethod. simpl py_eq_str. cbv iota.
  unfold Booking.get_bookings, dict_get_default.
  cbn [dict_get with_stdout table_items queue_msgs aws_calls stdout].
  rewrite Hparams, Htruthy.
  destruct v as [| | | | |qp];
    try discriminate;
    try (unfold bind, lift, raise, py_get, with_stdout; simpl;
         now rewrite <- app_assoc).
  now destruct (Hnot qp).
Qed.

(** X12. With query parameters that are a dict holding [event_id], the
    truth value of that value alone selects the read: a falsy one (the
    empty string, [None], [0], [False], an empty list or dict) makes
    [get_bookings] scan the table, and a truthy one, string or not, is
    passed to the query as the partition key. *)
Theorem event_id_truthiness_selects_read (e : Booking.env) (event : dict) (w : world)
    (qp : dict) (v : value) :
  dict_get event "queryStringParameters" = Some (VDict qp) ->
  dict_get qp "event_id" = Some v ->
  aws_calls (fst (Booking.get_bookings e event w)) =
    (aws_calls w ++ [if truthy v then Query v else Scan])%list.
Proof.
  intros Hparams Hid.
  pose proof (requested_of_params event qp v Hparams Hid) as Hreq.
  destruct (truthy v) eqn:Htruthy.
  - rewrite (get_bookings_query_path e event w v Hreq Htruthy). cbv zeta.
    destruct (Booking.query_fault e); reflexivity.
  - rewrite (get_bookings_scan_path e event w v Hreq Htruthy). cbv zeta.
    destruct (Booking.scan_fault e); reflexivity.
Qed.

(** X14. When the read of a listing raises [ex] (the query of a
    non-empty [event_id], or the scan when there is no filter), the
    answer is 500 with [str(ex)]; the read is in the call log and the
    table and the queue are unchanged. *)
Theorem read_failure_is_500 (e : Booking.env) (event : dict) (w : world) (ex : exn) :
  dict_get event "httpMethod" = Some (VStr "GET") ->
  (forall qp id,
     dict_get event "queryStringParameters" = Some (VDict qp) ->
     dict_get qp "event_id" = Some (VStr id) ->
     id <> "" ->
     Booking.query_fault e = Some ex ->
     Booking.lambda_handler e event w =
       (mkWorld (table_items w) (queue_msgs w) (aws_calls w ++ [Query (VStr id)])
                (stdout w ++ [received_line event; ("Error: " ++ str_exn ex)%string]),
        inr (internal_error ex)))
  /\ (event_id_absent event ->
      Booking.scan_fault e = Some ex ->
      Booking.lambda_handler e event w =
        (mkWorld (table_items w) (queue_msgs w) (aws_calls w ++ [Scan])
                 (stdout w ++ [received_line event; ("Error: " ++ str_exn ex)%string]),
         inr (internal_error ex))).
Proof.
  intros Hmethod. split.
  - intros qp id Hparams Hid Hne Hquery.
    assert (Htruthy : truthy (VStr id) = true).
    { simpl. apply String.eqb_neq in Hne. now rewrite Hne. }
    rewrite lambda_handler_runs. cbv zeta.
    unfold dict_get_default. rewrite Hmethod. simpl py_eq_str. cbv iota.
    rewrite (get_bookings_query_path e event _ (VStr id)
               (requested_of_params event qp _ Hparams Hid) Htruthy).
    rewrite Hquery. cbv zeta. unfold with_stdout. simpl.
    now rewrite <- app_assoc.
  - intros Habsent Hscan.
    rewrite lambda_handler_runs. cbv zeta.
    unfold dict_get_default. rewrite Hmethod. simpl py_eq_str. cbv iota.
    rewrite (get_bookings_scan_path e event _ VNone
               (requested_of_absent event Habsent) eq_refl).
    rewrite Hscan. cbv zeta. unfold with_stdout. simpl.
    now rewrite <- app_assoc.
Qed.

End BookingFurther.

(** * Further properties of the Notification Consumer *)

Section NotificationFurther.
Context `{PyRuntime}.

Lemma with_stdout_app (w : world) (xs ys : list string) :
  with_stdout (with_stdout w xs) ys = with_stdout w (xs ++ ys).
Proof. unfold with_stdout. simpl. now rewrite <- app_assoc. Qed.

(** One turn of the loop prints exactly one line. *)
Lemma process_record_trace (e : Notification.env) (i : nat) (record : value)
    (w : world) :
  exists line,
    Notification.process_record e i record w =
      (with_stdout w [line], inr (record_ok record)).
Proof.
  unfold Notification.process_record, record_ok.
  unfold try_except, bind at 1, lift at 1.
  destruct (py_getitem record "body") as [ex|raw]; simpl.
  - eexists. reflexivity.
  - unfold bind at 1, lift at 1.
    destruct (py_json_loads raw) as [ex|message]; simpl.
    + eexists. reflexivity.
    + destruct message; simpl; eexists; reflexivity.
Qed.

Lemma process_records_trace (e : Notification.env) (records : list value) :
  forall (i : nat) (processed failed : Z) (w : world),
  exists lines,
    length lines = length records
    /\ Notification.process_records e i records processed failed w =
         (with_stdout w lines,
          inr ((processed + Z.of_nat (length (filter record_ok records)))%Z,
               (failed + Z.of_nat (length (filter (fun r => negb (record_ok r))
                                                  records)))%Z)).
Proof.
  induction records as [|record rest IH]; intros i processed failed w.
  - exists []. split; [reflexivity|]. simpl. unfold ret, with_stdout.
    rewrite !Z.add_0_r, app_nil_r. now destruct w.
  - cbn [Notification.process_records]. unfold bind at 1.
    destruct (process_record_trace e i record w) as (line & ->).
    cbn [filter]. destruct (record_ok record); cbn [negb length].
    + destruct (IH (S i) (processed + 1)%Z failed (with_stdout w [line]))
        as (lines & Hlen & ->).
      exists (line :: lines). split; [simpl; now rewrite Hlen|].
      rewrite with_stdout_app. do 3 f_equal. lia.
    + destruct (IH (S i) processed (failed + 1)%Z (with_stdout w [line]))
        as (lines & Hlen & ->).
      exists (line :: lines). split; [simpl; now rewrite Hlen|].
      rewrite with_stdout_app. do 3 f_equal. lia.
Qed.

(** The whole run on an event whose [Records] can be iterated. *)
Lemma consumer_runs (e : Notification.env) (event : dict) (w : world)
    (batch : value) (records : list value) :
  dict_get event "Records" = Some batch ->
  py_iter batch = inr records ->
  exists lines processed failed,
    length lines = length records
    /\ processed = Z.of_nat (length (filter record_ok records))
    /\ failed = Z.of_nat (length (filter (fun r => negb (record_ok r)) records))
    /\ Notification.lambda_handler e event w =
         (with_stdout w
            ([("Notification handler triggered in " ++ Notification.ENVIRONMENT e
               ++ " environment")%string]
             ++ lines
             ++ [("Processed " ++ str_of_Z processed ++ " notifications, "
                  ++ str_of_Z failed ++ " failed")%string]),
          inr (VDict
            [("statusCode", VInt 200);
             ("body", VStr (json_dumps (VDict
                [("processed", VInt processed);
                 ("failed", VInt failed)])))])).
Proof.
  intros Hrecords Hiter.
  unfold Notification.lambda_handler.
  unfold bind at 1, print at 1. cbv beta iota.
  fold (with_stdout w [("Notification handler triggered in "
                        ++ Notification.ENVIRONMENT e ++ " environment")%string]).
  unfold bind at 1, lift at 1, py_getitem. rewrite Hrecords.
  unfold ret at 1. cbv beta iota.
  unfold bind at 1, lift at 1. rewrite Hiter. unfold ret at 1. cbv beta iota.
  unfold bind at 1.
  destruct (process_records_trace e records 0 0%Z 0%Z
              (with_stdout w [("Notification handler triggered in "
                               ++ Notification.ENVIRONMENT e
                               ++ " environment")%string]))
    as (lines & Hlen & ->).
  cbv beta iota. unfold bind, print, ret. cbn [fst snd].
  exists lines. do 2 eexists.
  split; [exact Hlen|]. split; [reflexivity|]. split; [reflexivity|].
  rewrite with_stdout_app. unfold with_stdout. simpl.
  now rewrite <- app_assoc.
Qed.

(** What happens when [Records] is missing or cannot be iterated: the
    exception leaves the handler after the first line was printed. *)
Lemma consumer_raises (e : Notification.env) (event : dict) (w : world) :
  let w1 := with_stdout w [("Notification handler triggered in "
                            ++ Notification.ENVIRONMENT e ++ " environment")%string] in
  (dict_get event "Records" = None ->
   Notification.lambda_handler e event w = (w1, inl (KeyError "Records")))
  /\ (forall batch ex,
        dict_get event "Records" = Some batch ->
        py_iter batch = inl ex ->
        Notification.lambda_handler e event w = (w1, inl ex)).
Proof.
  intros w1. split.
  - intros Hnone. unfold Notification.lambda_handler, py_getitem.
    unfold bind, print, lift, raise. simpl. rewrite Hnone. reflexivity.
  - intros batch ex Hsome Hiter. unfold Notification.lambda_handler, py_getitem.
    unfold bind, print, lift, raise, ret. simpl. rewrite Hsome, Hiter. reflexivity.
Qed.

(** X15. The consumer changes nothing but standard output: on every
    event, whether it returns or raises, the table, the queue and the
    call log are as they were. *)
Theorem consumer_changes_only_stdout (e : Notification.env) (event : dict) (w : world) :
  let w' := fst (Notification.lambda_handler e event w) in
  table_items w' = table_items w
  /\ queue_msgs w' = queue_msgs w
  /\ aws_calls w' = aws_calls w.
Proof.
  destruct (dict_get event "Records") as [batch|] eqn:Hrecords.
  - destruct (py_iter batch) as [ex|records] eqn:Hiter.
    + rewrite (proj2 (consumer_raises e event w) batch ex Hrecords Hiter).
      repeat split.
    + destruct (consumer_runs e event w batch records Hrecords Hiter)
        as (lines & processed & failed & _ & _ & _ & ->).
      repeat split.
  - rewrite (proj1 (consumer_raises e event w) Hrecords). repeat split.
Qed.

(** X16. The isolation of failures covers the records, not the event:
    when [Records] is missing the invocation raises [KeyError], and when
    it is [None], a boolean or a number it raises [TypeError]; in both
    cases only the first line has been printed and no record is
    counted. *)
Theorem malformed_event_fails_invocation (e : Notification.env) (event : dict)
    (w : world) :
  let w1 := mkWorld (table_items w) (queue_msgs w) (aws_calls w)
              (stdout w ++ [("Notification handler triggered in "
                             ++ Notification.ENVIRONMENT e
                             ++ " environment")%string]) in
  (dict_get event "Records" = None ->
   Notification.lambda_handler e event w = (w1, inl (KeyError "Records")))
  /\ (forall batch,
        dict_get event "Records" = Some batch ->
        batch = VNone \/ (exists b, batch = VBool b) \/ (exists z, batch = VInt z) ->
        Notification.lambda_handler e event w =
          (w1, inl (TypeError ("'" ++ type_name batch ++ "' object is not iterable")))).
Proof.
  intros w1. split.
  - apply (proj1 (consumer_raises e event w)).
  - intros batch Hsome Hscalar.
    apply (proj2 (consumer_raises e event w) batch _ Hsome).
    destruct Hscalar as [-> | [(b & ->) | (z & ->)]]; reflexivity.
Qed.

Lemma prefix_append (s t : string) : String.prefix s (s ++ t) = true.
Proof.
  induction s as [|c s IH]; simpl; [now destruct t|].
  destruct (ascii_dec c c) as [_|Hne]; [exact IH|now destruct Hne].
Qed.

(** The text one turn of the loop prints: the notification when the
    record goes through, the error when it does not. *)
Lemma process_record_text (e : Notification.env) (i : nat) (record : value)
    (w : world) :
  exists text,
    Notification.process_record e i record w =
      (with_stdout w [text], inr (record_ok record))
    /\ String.prefix (if record_ok record then "📧 Notification sent: "
                      else "Error processing message: ") text = true.
Proof.
  unfold Notification.process_record, record_ok.
  unfold try_except, bind at 1, lift at 1.
  destruct (py_getitem record "body") as [ex|raw].
  - eexists. split; [reflexivity|].
    exact (prefix_append "Error processing message: " (str_exn ex)).
  - unfold ret at 1. cbv beta iota. unfold bind at 1, lift at 1.
    destruct (py_json_loads raw) as [ex|message].
    + eexists. split; [reflexivity|].
      exact (prefix_append "Error processing message: " (str_exn ex)).
    + destruct message as [| | | | |d].
      6: { eexists. split; [reflexivity|].
           exact (prefix_append "📧 Notification sent: " _). }
      all: eexists; (split; [reflexivity|]);
        exact (prefix_append "Error processing message: " _).
Qed.

Lemma process_records_texts (e : Notification.env) (records : list value) :
  forall (i : nat) (processed failed : Z) (w : world),
  exists texts,
    Forall2 (fun record text =>
               String.prefix (if record_ok record then "📧 Notification sent: "
                              else "Error processing message: ") text = true)
            records texts
    /\ Notification.process_records e i records processed failed w =
         (with_stdout w texts,
          inr ((processed + Z.of_nat (length (filter record_ok records)))%Z,
               (failed + Z.of_nat (length (filter (fun r => negb (record_ok r))
                                                  records)))%Z)).
Proof.
  induction records as [|record rest IH]; intros i processed failed w.
  - exists []. split; [constructor|]. simpl. unfold ret, with_stdout.
    rewrite !Z.add_0_r, app_nil_r. now destruct w.
  - cbn [Notification.process_records]. unfold bind at 1.
    destruct (process_record_text e i record w) as (text & -> & Htext).
    cbn [filter]. destruct (record_ok record) eqn:Hok; cbn [negb length].
    + destruct (IH (S i) (processed + 1)%Z failed (with_stdout w [text]))
        as (texts & Hall & ->).
      exists (text :: texts). split; [constructor; [now rewrite Hok|exact Hall]|].
      rewrite with_stdout_app. do 3 f_equal. lia.
    + destruct (IH (S i) processed (failed + 1)%Z (with_stdout w [text]))
        as (texts & Hall & ->).
      exists (text :: texts). split; [constructor; [now rewrite Hok|exact Hall]|].
      rewrite with_stdout_app. do 3 f_equal. lia.
Qed.

(** X17. One call of [print] per record.  On a batch of [n] records the
    handler calls [print] [n + 2] times: once for the opening text, once
    for each record in the order of the batch, with the notification for
    a record that is processed and the error for one that fails, and
    once for the summary with the two counts. *)
Theorem one_print_per_record (e : Notification.env) (event : dict) (w : world)
    (records : list value) :
  dict_get event "Records" = Some (VList records) ->
  exists texts,
    stdout (fst (Notification.lambda_handler e event w)) =
      (stdout w
       ++ [("Notification handler triggered in " ++ Notification.ENVIRONMENT e
            ++ " environment")%string]
       ++ texts
       ++ [("Processed "
            ++ str_of_Z (Z.of_nat (length (filter record_ok records)))
            ++ " notifications, "
            ++ str_of_Z (Z.of_nat (length (filter (fun r => negb (record_ok r))
                                                  records)))
            ++ " failed")%string])%list
    /\ Forall2 (fun record text =>
                  String.prefix (if record_ok record then "📧 Notification sent: "
                                 else "Error processing message: ") text = true)
               records texts
    /\ length (stdout (fst (Notification.lambda_handler e event w))) =
         length (stdout w) + length records + 2.
Proof.
  intros Hrecords.
  assert (Hout : exists texts,
    stdout (fst (Notification.lambda_handler e event w)) =
      (stdout w
       ++ [("Notification handler triggered in " ++ Notification.ENVIRONMENT e
            ++ " environment")%string]
       ++ texts
       ++ [("Processed "
            ++ str_of_Z (Z.of_nat (length (filter record_ok records)))
            ++ " notifications, "
            ++ str_of_Z (Z.of_nat (length (filter (fun r => negb (record_ok r))
                                                  records)))
            ++ " failed")%string])%list
    /\ Forall2 (fun record text =>
                  String.prefix (if record_ok record then "📧 Notification sent: "
                                 else "Error processing message: ") text = true)
               records texts).
  { unfold Notification.lambda_handler.
    unfold bind at 1, print at 1. cbv beta iota.
    fold (with_stdout w [("Notification handler triggered in "
                          ++ Notification.ENVIRONMENT e ++ " environment")%string]).
    unfold bind at 1, lift at 1, py_getitem. rewrite Hrecords.
    unfold ret at 1. cbv beta iota.
    unfold bind at 1, lift at 1, py_iter, ret at 1. cbv beta iota.
    unfold bind at 1.
    destruct (process_records_texts e records 0 0%Z 0%Z
                (with_stdout w [("Notification handler triggered in "
                                 ++ Notification.ENVIRONMENT e
                                 ++ " environment")%string]))
      as (texts & Hall & ->).
    cbv beta iota. unfold bind, print, ret. cbn [fst snd].
    rewrite with_stdout_app. cbn [with_stdout stdout fst Z.add].
    exists texts. split; [now rewrite <- !app_assoc|exact Hall]. }
  destruct Hout as (texts & Hout & Hall).
  exists texts. split; [exact Hout|]. split; [exact Hall|].
  rewrite Hout, !length_app. cbn [length].
  rewrite <- (Forall2_length Hall). lia.
Qed.


(** X19. Producer and consumer agree.  With a JSON library that reads
    back the notification it wrote, the text published by a successful
    creation, delivered as the body of a record, is processed without
    failure, and the notification printed for it has the action
    [booking_created], the caller's [user_email] as recipient, the
    caller's [event_id], [user_name] and the generated [booking_id] in
    its texts, and the creation time, not the consumer's clock, as
    timestamp. *)
Theorem published_message_is_consumed (e : Booking.env) (ne : Notification.env)
    (event : dict) (w w2 : world) (eid un ue : value) :
  valid_request event eid un ue ->
  Booking.put_item_fault e = None ->
  Booking.send_message_fault e = None ->
  json_loads (json_dumps (VDict (notification_of e eid un ue)))
    = inr (VDict (notification_of e eid un ue)) ->
  let notification :=
    VDict
      [("type", VStr "email_notification");
       ("action", VStr "booking_created");
       ("recipient", ue);
       ("subject", VStr ("Event Booking Confirmation - " ++ py_str eid));
       ("message", VStr ("Hello " ++ py_str un ++ ", your booking "
                         ++ "booking-" ++ Booking.uuid4 e ++ " has been confirmed!"));
       ("timestamp", VStr (Booking.utcnow_isoformat e))] in
  exists text,
    queue_msgs (fst (Booking.create_booking e event w)) = (queue_msgs w ++ [text])%list
    /\ Notification.lambda_handler ne [("Records", VList [delivery text])] w2 =
         (mkWorld (table_items w2) (queue_msgs w2) (aws_calls w2)
            (stdout w2
             ++ [("Notification handler triggered in " ++ Notification.ENVIRONMENT ne
                  ++ " environment")%string;
                 ("📧 Notification sent: " ++ json_dumps_indent2 notification)%string;
                 "Processed 1 notifications, 0 failed"%string]),
          inr (VDict
            [("statusCode", VInt 200);
             ("body", VStr (json_dumps (VDict
                [("processed", VInt 1); ("failed", VInt 0)])))])).
Proof.
  intros Hvalid Hput Hsend Hround notification.
  destruct (create_booking_succeeds e event w eid un ue Hvalid Hput Hsend)
    as (w1 & Hrun & _ & Hqueue).
  exists (json_dumps (VDict (notification_of e eid un ue))).
  split; [rewrite Hrun; exact Hqueue|].
  unfold Notification.lambda_handler, Notification.process_records,
    Notification.process_record, Notification.process_notification,
    delivery, py_getitem, py_json_loads, py_iter, py_get.
  unfold bind, try_except, lift, ret, raise, print.
  unfold notification_of in *. simpl in Hround |- *. rewrite Hround. simpl.
  rewrite <- !app_assoc. reflexivity.
Qed.

End NotificationFurther.

(** * Further runs on the sample data *)

(** [post] in lower case is not [POST]. *)
Lemma unsupported_method_is_405_witness :
  @Booking.lambda_handler sample_runtime sample_env
     [("httpMethod", VStr "post"); ("body", VStr (render sample_full_body))]
     empty_world =
    (mkWorld [] [] []
       [@received_line sample_runtime
          [("httpMethod", VStr "post"); ("body", VStr (render sample_full_body))]],
     inr (@method_not_allowed sample_runtime)).
Proof.
  apply (@unsupported_method_is_405 sample_runtime sample_env
           [("httpMethod", VStr "post"); ("body", VStr (render sample_full_body))]
           empty_world); simpl; discriminate.
Defined.

(** The table refuses the write. *)
Lemma write_failure_publishes_nothing_witness :
  @Booking.lambda_handler sample_runtime sample_env_table_down
     (sample_post sample_full_body) empty_world =
    (mkWorld [] []
       [PutItem (booking_of sample_env_table_down (VStr "event-123") (VStr "")
                            (VStr "john@example.com"))]
       [@received_line sample_runtime (sample_post sample_full_body);
        "Error: table unavailable"],
     inr (@internal_error sample_runtime (ClientError "table unavailable"))).
Proof.
  apply (@write_failure_publishes_nothing sample_runtime sample_env_table_down
           (sample_post sample_full_body) empty_world
           (VStr "event-123") (VStr "") (VStr "john@example.com")
           (ClientError "table unavailable") eq_refl).
  - exists (render sample_full_body),
      [("event_id", VStr "event-123"); ("user_name", VStr "");
       ("user_email", VStr "john@example.com")].
    repeat split.
  - reflexivity.
Defined.

(** A POST whose body is [None]. *)
Lemma non_string_body_is_500_witness :
  @Booking.lambda_handler sample_runtime sample_env
     [("httpMethod", VStr "POST"); ("body", VNone)] empty_world =
    (mkWorld [] [] []
       [@received_line sample_runtime [("httpMethod", VStr "POST"); ("body", VNone)];
        "Error: the JSON object must be str, bytes or bytearray, not NoneType"],
     inr (@internal_error sample_runtime
            (TypeError "the JSON object must be str, bytes or bytearray, not NoneType"))).
Proof.
  apply (@non_string_body_is_500 sample_runtime sample_env
           [("httpMethod", VStr "POST"); ("body", VNone)] empty_world VNone
           eq_refl eq_refl).
  discriminate.
Defined.

(** The body [7] is JSON, but a number has no members. *)
Lemma non_object_body_creates_nothing_witness :
  exists r,
    @Booking.create_booking sample_runtime sample_env
       (sample_post (VInt 7)) empty_world = (empty_world, r)
    /\ ((exists msg, r = inl (TypeError msg))
        \/ (exists field, In field ["event_id"; "user_name"; "user_email"]
                          /\ r = inr (@bad_request sample_runtime
                                        ("Missing required field: " ++ field)))).
Proof.
  apply (@non_object_body_creates_nothing sample_runtime sample_env
           (sample_post (VInt 7)) empty_world (render (VInt 7)) (VInt 7)
           eq_refl eq_refl).
  discriminate.
Defined.

(** The 201 of the sample creation. *)
Lemma success_means_stored_and_published_witness :
  exists eid un ue,
    @valid_request sample_runtime (sample_post sample_full_body) eid un ue
    /\ In (booking_of sample_env eid un ue)
          (table_items (fst (@Booking.lambda_handler sample_runtime sample_env
                               (sample_post sample_full_body) empty_world))).
Proof.
  destruct (@success_means_stored_and_published sample_runtime sample_env
              (sample_post sample_full_body) empty_world
              (fst (@Booking.lambda_handler sample_runtime sample_env
                      (sample_post sample_full_body) empty_world))
              (@created sample_runtime
                 (booking_of sample_env (VStr "event-123") (VStr "")
                             (VStr "john@example.com")))
              eq_refl eq_refl)
    as (eid & un & ue & Hvalid & _ & Hin & _).
  exists eid, un, ue. split; [exact Hvalid|exact Hin].
Defined.

(** The 400 of the request without [user_email]. *)
Lemma rejection_makes_no_call_witness :
  let w' := fst (@Booking.lambda_handler sample_runtime sample_env
                   (sample_post sample_body_without_email) sample_table) in
  table_items w' = table_items sample_table
  /\ queue_msgs w' = []
  /\ aws_calls w' = [].
Proof.
  apply (@rejection_makes_no_call sample_runtime sample_env
           (sample_post sample_body_without_email) sample_table
           (fst (@Booking.lambda_handler sample_runtime sample_env
                   (sample_post sample_body_without_email) sample_table))
           (@bad_request sample_runtime "Missing required field: user_email")
           eq_refl).
  left. reflexivity.
Defined.

Lemma sample_full_body_is_valid :
  @valid_request sample_runtime (sample_post sample_full_body)
     (VStr "event-123") (VStr "") (VStr "john@example.com").
Proof.
  exists (render sample_full_body),
    [("event_id", VStr "event-123"); ("user_name", VStr "");
     ("user_email", VStr "john@example.com")].
  repeat split.
Defined.

Lemma sample_table_has_no_0001 (item : dict) :
  In item (table_items sample_table) ->
  dict_get item "booking_id" <> Some (VStr ("booking-" ++ Booking.uuid4 sample_env)).
Proof.
  intros [<- | [<- | [<- | []]]]; discriminate.
Defined.

(** Create in the sample table, then list [event-123] and list all. *)
Lemma created_booking_is_listed_witness :
  let w1 := fst (@Booking.create_booking sample_runtime sample_env
                   (sample_post sample_full_body) sample_table) in
  let booking :=
    booking_of sample_env (VStr "event-123") (VStr "") (VStr "john@example.com") in
  (exists bookings,
     snd (@Booking.get_bookings sample_runtime sample_env
            (sample_get (VDict [("event_id", VStr "event-123")])) w1) =
       inr (@listing sample_runtime
              ("Found " ++ str_of_nat (length bookings)
               ++ " booking(s) for event " ++ "event-123") bookings)
     /\ In booking bookings)
  /\ (exists bookings,
        snd (@Booking.get_bookings sample_runtime sample_env (sample_get VNone) w1) =
          inr (@listing sample_runtime
                 ("Found " ++ str_of_nat (length bookings) ++ " total booking(s)")
                 bookings)
        /\ In booking bookings).
Proof.
  split.
  - apply (proj1 (@created_booking_is_listed sample_runtime sample_env sample_env
                    (sample_post sample_full_body)
                    (sample_get (VDict [("event_id", VStr "event-123")]))
                    sample_table "event-123" (VStr "") (VStr "john@example.com")
                    sample_full_body_is_valid eq_refl eq_refl)
             [("event_id", VStr "event-123")] eq_refl eq_refl);
      [discriminate|reflexivity].
  - apply (proj2 (@created_booking_is_listed sample_runtime sample_env sample_env
                    (sample_post sample_full_body) (sample_get VNone)
                    sample_table "event-123" (VStr "") (VStr "john@example.com")
                    sample_full_body_is_valid eq_refl eq_refl));
      [right; left; reflexivity|reflexivity].
Defined.

(** Three bookings before, four after. *)
Lemma fresh_booking_adds_one_witness :
  let w1 := fst (@Booking.create_booking sample_runtime sample_env
                   (sample_post sample_full_body) sample_table) in
  let booking :=
    booking_of sample_env (VStr "event-123") (VStr "") (VStr "john@example.com") in
  Permutation (table_items w1) (booking :: table_items sample_table)
  /\ exists bookings,
       snd (@Booking.get_bookings sample_runtime sample_env (sample_get VNone) w1) =
         inr (@listing sample_runtime "Found 4 total booking(s)" bookings)
       /\ Permutation bookings (booking :: table_items sample_table).
Proof.
  apply (@fresh_booking_adds_one sample_runtime sample_env sample_env
           (sample_post sample_full_body) (sample_get VNone) sample_table
           (VStr "event-123") (VStr "") (VStr "john@example.com")
           sample_full_body_is_valid eq_refl eq_refl sample_table_has_no_0001).
  - right. left. reflexivity.
  - reflexivity.
Defined.

(** Query parameters that arrive as a string. *)
Lemma non_dict_query_parameters_is_500_witness :
  @Booking.lambda_handler sample_runtime sample_env
     (sample_get (VStr "event_id=event-123")) sample_table =
    (mkWorld (table_items sample_table) [] []
       [@received_line sample_runtime (sample_get (VStr "event_id=event-123"));
        "Error: 'str' object has no attribute 'get'"],
     inr (@internal_error sample_runtime
            (AttributeError "'str' object has no attribute 'get'"))).
Proof.
  apply (@non_dict_query_parameters_is_500 sample_runtime sample_env
           (sample_get (VStr "event_id=event-123")) sample_table
           (VStr "event_id=event-123") eq_refl eq_refl eq_refl).
  discriminate.
Defined.

(** [event_id] given as [0] scans; given as [7] it is the key queried. *)
Lemma event_id_truthiness_selects_read_witness :
  aws_calls (fst (@Booking.get_bookings sample_runtime sample_env
                    (sample_get (VDict [("event_id", VInt 0)])) sample_table))
    = [Scan]
  /\ aws_calls (fst (@Booking.get_bookings sample_runtime sample_env
                       (sample_get (VDict [("event_id", VInt 7)])) sample_table))
    = [Query (VInt 7)].
Proof.
  split.
  - exact (@event_id_truthiness_selects_read sample_runtime sample_env
             (sample_get (VDict [("event_id", VInt 0)])) sample_table
             [("event_id", VInt 0)] (VInt 0) eq_refl eq_refl).
  - exact (@event_id_truthiness_selects_read sample_runtime sample_env
             (sample_get (VDict [("event_id", VInt 7)])) sample_table
             [("event_id", VInt 7)] (VInt 7) eq_refl eq_refl).
Defined.

(** The query is refused; so is the scan. *)
Lemma read_failure_is_500_witness :
  @Booking.lambda_handler sample_runtime sample_env_reads_down
     (sample_get (VDict [("event_id", VStr "event-123")])) sample_table =
    (mkWorld (table_items sample_table) [] [Query (VStr "event-123")]
       [@received_line sample_runtime
          (sample_get (VDict [("event_id", VStr "event-123")]));
        "Error: query refused"],
     inr (@internal_error sample_runtime (ClientError "query refused")))
  /\ @Booking.lambda_handler sample_runtime sample_env_reads_down
       (sample_get VNone) sample_table =
    (mkWorld (table_items sample_table) [] [Scan]
       [@received_line sample_runtime (sample_get VNone); "Error: scan refused"],
     inr (@internal_error sample_runtime (ClientError "scan refused"))).
Proof.
  split.
  - apply (proj1 (@read_failure_is_500 sample_runtime sample_env_reads_down
                    (sample_get (VDict [("event_id", VStr "event-123")]))
                    sample_table (ClientError "query refused") eq_refl)
             [("event_id", VStr "event-123")] "event-123" eq_refl eq_refl);
      [discriminate|reflexivity].
  - apply (proj2 (@read_failure_is_500 sample_runtime sample_env_reads_down
                    (sample_get VNone) sample_table
                    (ClientError "scan refused") eq_refl));
      [right; left; reflexivity|reflexivity].
Defined.

(** Two records, four calls of [print]. *)
Lemma one_print_per_record_witness :
  exists texts,
    stdout (fst (@Notification.lambda_handler sample_runtime
                   sample_notification_env
                   [("Records", VList [delivery (render sample_notification);
                                       delivery "oops"])]
                   empty_world)) =
      (["Notification handler triggered in dev environment"%string]
       ++ texts
       ++ ["Processed 1 notifications, 1 failed"%string])%list
    /\ length texts = 2.
Proof.
  destruct (@one_print_per_record sample_runtime sample_notification_env
              [("Records", VList [delivery (render sample_notification);
                                  delivery "oops"])]
              empty_world
              [delivery (render sample_notification); delivery "oops"] eq_refl)
    as (texts & Hout & Hall & _).
  exists texts. split; [exact Hout|].
  symmetry. exact (Forall2_length Hall).
Defined.

(** From the creation request to the printed notification. *)
Lemma published_message_is_consumed_witness :
  exists text,
    queue_msgs (fst (@Booking.create_booking sample_runtime_john sample_env
                       (sample_post sample_body_john) empty_world)) = [text]
    /\ snd (@Notification.lambda_handler sample_runtime_john sample_notification_env
              [("Records", VList [delivery text])] empty_world) =
         inr (VDict
           [("statusCode", VInt 200);
            ("body", VStr (render (VDict
               [("processed", VInt 1); ("failed", VInt 0)])))]).
Proof.
  destruct (@published_message_is_consumed sample_runtime_john sample_env
              sample_notification_env (sample_post sample_body_john)
              empty_world empty_world
              (VStr "event-123") (VStr "John Doe") (VStr "john@example.com"))
    as (text & Hqueue & Hrun).
  - exists (render sample_body_john),
      [("event_id", VStr "event-123"); ("user_name", VStr "John Doe");
       ("user_email", VStr "john@example.com")].
    repeat split.
  - reflexivity.
  - reflexivity.
  - reflexivity.
  - exists text. split; [exact Hqueue|]. rewrite Hrun. reflexivity.
Defined.
